(** * Translator feature: error normalisation, gateway, proxy endpoint, history

    A shallow embedding of
    - [src/features/Translator/services/translationAPI.ts]
      (the Error Normalizer [getErrorMessage] and the Gateway [translate]),
    - the route handler [POST] of the translate endpoint
      ([src/unnamed/part_000]),
    - the History Store contract used by
      [src/features/Translator/__tests__/translator.property.test.ts],
    - the helpers [truncateText] and [formatTimestamp] of the history list
      ([src/unnamed/part_001]).

    JavaScript strings are sequences of UTF-16 code units, JavaScript values
    are a tagged union, property reads follow the prototype chain of plain
    objects, and code that throws or logs is written in a small
    writer-and-exception monad whose trace records every outgoing request. *)

From Stdlib Require Import ZArith NArith List String Ascii Bool Lia.
From Stdlib Require Import DecimalString.
From stdpp Require Import gmap strings list fin_maps.

Open Scope Z_scope.

(* ===================================================================== *)
(** ** JavaScript strings *)
(* ===================================================================== *)

(** A JavaScript string is a finite sequence of UTF-16 code units;
    [s.length] is the number of code units. *)
Abbreviation CodeUnit := N.
Abbreviation JSString := (list N).

(** String literals of the source, all of them ASCII. *)
Definition js (s : string) : JSString :=
  map N_of_ascii (list_ascii_of_string s).

Definition js_length (s : JSString) : Z := Z.of_nat (length s).

(** Strict equality [===] of two strings. *)
Fixpoint js_eqb (a b : JSString) : bool :=
  match a, b with
  | [], [] => true
  | x :: a', y :: b' => N.eqb x y && js_eqb a' b'
  | _, _ => false
  end.

(** ECMAScript [WhiteSpace] and [LineTerminator] code points, the ones
    [String.prototype.trim] strips:
    TAB, VT, FF, SP, NBSP, ZWNBSP, the category Zs, and LF, CR, LS, PS. *)
Definition is_js_whitespace (c : CodeUnit) : bool :=
  (N.eqb c 9 || N.eqb c 10 || N.eqb c 11 || N.eqb c 12 || N.eqb c 13
   || N.eqb c 32 || N.eqb c 160 || N.eqb c 5760
   || (N.leb 8192 c && N.leb c 8202)
   || N.eqb c 8232 || N.eqb c 8233 || N.eqb c 8239 || N.eqb c 8287
   || N.eqb c 12288 || N.eqb c 65279)%N.

Fixpoint trim_start (s : JSString) : JSString :=
  match s with
  | c :: s' => if is_js_whitespace c then trim_start s' else s
  | [] => []
  end.

Definition trim_end (s : JSString) : JSString :=
  rev (trim_start (rev s)).

(** [String.prototype.trim]. *)
Definition trim (s : JSString) : JSString := trim_end (trim_start s).

Fixpoint starts_with (needle s : JSString) : bool :=
  match needle, s with
  | [], _ => true
  | x :: needle', y :: s' => N.eqb x y && starts_with needle' s'
  | _ :: _, [] => false
  end.

(** [String.prototype.includes]: [needle] occurs somewhere in [s]. *)
Fixpoint includes (s needle : JSString) : bool :=
  starts_with needle s ||
  match s with
  | [] => false
  | _ :: s' => includes s' needle
  end.

(* ===================================================================== *)
(** ** JavaScript values *)
(* ===================================================================== *)

(** The values the program handles: what [JSON.parse] can produce, plus
    [undefined] and the built-in objects and functions that a property read
    on a plain object can reach through [Object.prototype].  Numbers are the
    integers; the program only tests numbers for truthiness and type. *)
#[warnings="-register-all"]
Inductive JSValue : Type :=
| VUndefined
| VNull
| VBool (b : bool)
| VNumber (n : Z)
| VString (s : JSString)
| VArray (elems : list JSValue)
| VObject (props : list (JSString * JSValue))
| VBuiltin (name : string).

(** ToBoolean. *)
Definition truthy (v : JSValue) : bool :=
  match v with
  | VUndefined | VNull => false
  | VBool b => b
  | VNumber n => negb (n =? 0)
  | VString s => match s with [] => false | _ => true end
  | VArray _ | VObject _ | VBuiltin _ => true
  end.

(** [a || b]. *)
Definition js_or (a b : JSValue) : JSValue := if truthy a then a else b.

(** [typeof v === 'string']. *)
Definition is_string (v : JSValue) : bool :=
  match v with VString _ => true | _ => false end.

Definition decimal (n : Z) : JSString :=
  js (NilZero.string_of_int (Z.to_int n)).

(** Own-property lookup in a property list. *)
Fixpoint own_property (props : list (JSString * JSValue)) (k : JSString)
  : option JSValue :=
  match props with
  | [] => None
  | (k', v) :: props' => if js_eqb k' k then Some v else own_property props' k
  end.

(** ToString, as used by ToPropertyKey when a value indexes an object;
    [None] where the conversion throws a [TypeError].
    - Numbers print in decimal.
    - An array prints its elements separated by commas, [undefined] and
      [null] elements as the empty string ([Array.prototype.join]).
    - A plain object prints as "[object Object]" through the inherited
      [toString]; an own [toString] property, which in parsed JSON is never
      callable, leaves only the inherited [valueOf], which returns the
      object itself, and the conversion throws.
    - A built-in prints as its name; none reaches a conversion here. *)
Fixpoint to_js_string (v : JSValue) : option JSString :=
  match v with
  | VUndefined => Some (js "undefined")
  | VNull => Some (js "null")
  | VBool true => Some (js "true")
  | VBool false => Some (js "false")
  | VNumber n => Some (decimal n)
  | VString s => Some s
  | VArray elems =>
      (fix join (l : list JSValue) : option JSString :=
         match l with
         | [] => Some []
         | x :: l' =>
             match (match x with
                    | VUndefined | VNull => Some []
                    | _ => to_js_string x
                    end) with
             | None => None
             | Some sx =>
                 match l' with
                 | [] => Some sx
                 | _ :: _ =>
                     match join l' with
                     | None => None
                     | Some rest => Some (sx ++ js "," ++ rest)
                     end
                 end
             end
         end) elems
  | VObject props =>
      match own_property props (js "toString") with
      | Some _ => None
      | None => Some (js "[object Object]")
      end
  | VBuiltin name => Some (js name)
  end.

(** The properties every plain object inherits from [Object.prototype].
    [__proto__] is an accessor that yields the prototype of the receiver,
    which for a plain object is [Object.prototype] itself. *)
Definition Object_prototype : list (JSString * JSValue) :=
  [ (js "constructor", VBuiltin "Object");
    (js "toString", VBuiltin "Object.prototype.toString");
    (js "valueOf", VBuiltin "Object.prototype.valueOf");
    (js "hasOwnProperty", VBuiltin "Object.prototype.hasOwnProperty");
    (js "isPrototypeOf", VBuiltin "Object.prototype.isPrototypeOf");
    (js "propertyIsEnumerable", VBuiltin "Object.prototype.propertyIsEnumerable");
    (js "toLocaleString", VBuiltin "Object.prototype.toLocaleString");
    (js "__proto__", VBuiltin "Object.prototype");
    (js "__defineGetter__", VBuiltin "Object.prototype.__defineGetter__");
    (js "__defineSetter__", VBuiltin "Object.prototype.__defineSetter__");
    (js "__lookupGetter__", VBuiltin "Object.prototype.__lookupGetter__");
    (js "__lookupSetter__", VBuiltin "Object.prototype.__lookupSetter__") ].

(** [o[k]] on a plain object with own properties [props]: the own property
    if there is one, else the inherited one, else [undefined]. *)
Definition plain_object_get (props : list (JSString * JSValue)) (k : JSString)
  : JSValue :=
  match own_property props k with
  | Some v => v
  | None =>
      match own_property Object_prototype k with
      | Some v => v
      | None => VUndefined
      end
  end.

(* ===================================================================== *)
(** ** Error Normalizer (translationAPI.ts, lines 10-39) *)
(* ===================================================================== *)

Module ERROR_CODES.
Definition INVALID_INPUT : JSString := js "INVALID_INPUT".
Definition RATE_LIMIT : JSString := js "RATE_LIMIT".
Definition API_ERROR : JSString := js "API_ERROR".
Definition AUTH_ERROR : JSString := js "AUTH_ERROR".
Definition NETWORK_ERROR : JSString := js "NETWORK_ERROR".
Definition OFFLINE : JSString := js "OFFLINE".
End ERROR_CODES.

(** The own properties of the object literal [ERROR_MESSAGES]. *)
Definition ERROR_MESSAGES : list (JSString * JSValue) :=
  [ (ERROR_CODES.INVALID_INPUT,
     VString (js "Please enter valid text to translate."));
    (ERROR_CODES.RATE_LIMIT,
     VString (js "Too many requests. Please wait a moment and try again."));
    (ERROR_CODES.API_ERROR,
     VString (js "Translation service is temporarily unavailable."));
    (ERROR_CODES.AUTH_ERROR,
     VString (js "Translation service configuration error."));
    (ERROR_CODES.NETWORK_ERROR,
     VString (js "Unable to connect. Please check your internet connection."));
    (ERROR_CODES.OFFLINE,
     VString (js "You are offline. Please check your internet connection.")) ].

(** [ERROR_MESSAGES[code] || ERROR_MESSAGES[ERROR_CODES.API_ERROR]].
    The declared result type is [string]; the value produced is whatever the
    two property reads yield. *)
Definition getErrorMessage (code : JSString) : JSValue :=
  js_or (plain_object_get ERROR_MESSAGES code)
        (plain_object_get ERROR_MESSAGES ERROR_CODES.API_ERROR).

(** The six codes of the taxonomy and the names [Object.prototype] defines. *)
Definition taxonomy : list JSString :=
  [ ERROR_CODES.INVALID_INPUT; ERROR_CODES.RATE_LIMIT; ERROR_CODES.API_ERROR;
    ERROR_CODES.AUTH_ERROR; ERROR_CODES.NETWORK_ERROR; ERROR_CODES.OFFLINE ].

Definition reserved_names : list JSString := map fst Object_prototype.

Definition API_ERROR_message : JSValue :=
  VString (js "Translation service is temporarily unavailable.").

(** The message of each of the six codes, and the API_ERROR message for
    every other name. *)
Definition message_of_code (c : JSString) : JSString :=
  if js_eqb c (js "INVALID_INPUT") then
    js "Please enter valid text to translate."
  else if js_eqb c (js "RATE_LIMIT") then
    js "Too many requests. Please wait a moment and try again."
  else if js_eqb c (js "API_ERROR") then
    js "Translation service is temporarily unavailable."
  else if js_eqb c (js "AUTH_ERROR") then
    js "Translation service configuration error."
  else if js_eqb c (js "NETWORK_ERROR") then
    js "Unable to connect. Please check your internet connection."
  else if js_eqb c (js "OFFLINE") then
    js "You are offline. Please check your internet connection."
  else
    js "Translation service is temporarily unavailable.".


(* ===================================================================== *)
(** ** Exceptions, completions and effects *)
(* ===================================================================== *)

Inductive Nullish : Type := NUndefined | NNull.

(** The exceptions the runtime raises in the two handlers, by origin.
    - [FetchFailed]: [fetch] could not complete the request at the
      transport level; it rejects with a [TypeError], worded
      "fetch failed" by the server runtime.
    - [JSONSyntaxError]: [.json()] on a body that is not JSON rejects with a
      [SyntaxError] whose message quotes the offending text.
    - [NullishRead]: a property read on [undefined] or [null].
    - [NullishDestructure]: object destructuring of [undefined] or [null].
    - [NoPrimitiveValue]: a value used as a property key cannot be
      converted to a string.
    - [StatusOutOfRange]: the [RangeError] of the [Response] constructor
      for a status outside 200-599.
    - [NullBodyStatus]: the [TypeError] of the [Response] constructor for a
      body given with a status that allows none. *)
Inductive Exn : Type :=
| FetchFailed
| JSONSyntaxError (detail : JSString)
| NullishRead (base : Nullish) (prop : JSString)
| NullishDestructure (base : Nullish) (prop : JSString)
| NoPrimitiveValue
| StatusOutOfRange
| NullBodyStatus (st : Z).

(** [e instanceof TypeError]. *)
Definition instanceof_TypeError (e : Exn) : bool :=
  match e with
  | JSONSyntaxError _ | StatusOutOfRange => false
  | FetchFailed | NullishRead _ _ | NullishDestructure _ _
  | NoPrimitiveValue | NullBodyStatus _ => true
  end.

Definition nullish_name (b : Nullish) : JSString :=
  match b with NUndefined => js "undefined" | NNull => js "null" end.

(** [e.message]. *)
Definition exn_message (e : Exn) : JSString :=
  match e with
  | FetchFailed => js "fetch failed"
  | JSONSyntaxError detail => detail
  | NullishRead b prop =>
      js "Cannot read properties of " ++ nullish_name b
        ++ js " (reading '" ++ prop ++ js "')"
  | NullishDestructure b prop =>
      js "Cannot destructure property '" ++ prop
        ++ js "' of 'body' as it is " ++ nullish_name b ++ js "."
  | NoPrimitiveValue => js "Cannot convert object to primitive value"
  | StatusOutOfRange =>
      js "init[" ++ [34%N] ++ js "status" ++ [34%N]
        ++ js "] must be in the range of 200 to 599, inclusive."
  | NullBodyStatus st =>
      js "Response constructor: Invalid response status code " ++ decimal st
  end.

(** A transport-level failure: the request could not reach its endpoint. *)
Definition is_transport_failure (e : Exn) : bool :=
  match e with FetchFailed => true | _ => false end.

(** How a piece of code completes: normally, or by throwing [t]. *)
Inductive Completion (T A : Type) : Type :=
| Return (a : A)
| Throw (t : T).
Arguments Return {T A} a.
Arguments Throw {T A} t.

(** An outgoing HTTP request; [req_body] is the value handed to
    [JSON.stringify]. *)
Record FetchRequest : Type := {
  req_url : JSString;
  req_method : JSString;
  req_headers : list (JSString * JSString);
  req_body : JSValue
}.

(** What [.json()] will find in a body: text that is not JSON, or a parsed
    value. *)
Inductive Body : Type :=
| NotJSON (detail : JSString)
| JSONBody (v : JSValue).

Record HttpResponse : Type := {
  resp_status : Z;
  resp_body : Body
}.

(** [response.ok]: the status is in the range 200-299. *)
Definition resp_ok (r : HttpResponse) : bool :=
  (200 <=? resp_status r) && (resp_status r <=? 299).

Inductive FetchOutcome : Type :=
| NetworkFailure
| Responded (r : HttpResponse).

(** The network, as seen by one handler run. *)
Definition Network : Type := FetchRequest -> FetchOutcome.

Inductive LogArg : Type :=
| LogNothing
| LogStatus (st : Z)
| LogExn (e : Exn).

(** Observable effects, in program order. *)
Inductive Event : Type :=
| EFetch (req : FetchRequest)
| EConsoleError (label : JSString) (arg : LogArg).

(** Effectful code: the events it emitted and how it completed. *)
Definition Eff (T A : Type) : Type := (list Event * Completion T A)%type.

Definition ret {T A} (a : A) : Eff T A := ([], Return a).
Definition throw {T A} (t : T) : Eff T A := ([], Throw t).

Definition bind {T A B} (m : Eff T A) (f : A -> Eff T B) : Eff T B :=
  match m with
  | (tr, Return a) => let (tr', c) := f a in (tr ++ tr', c)
  | (tr, Throw t) => (tr, Throw t)
  end.

(** [try { m } catch (t) { handler t }]. *)
Definition try_catch {T U A} (m : Eff T A) (handler : T -> Eff U A) : Eff U A :=
  match m with
  | (tr, Return a) => (tr, Return a)
  | (tr, Throw t) => let (tr', c) := handler t in (tr ++ tr', c)
  end.

(** Re-tag the thrown values of [m]. *)
Definition raise_as {T U A} (inj : T -> U) (m : Eff T A) : Eff U A :=
  match m with
  | (tr, Return a) => (tr, Return a)
  | (tr, Throw t) => (tr, Throw (inj t))
  end.

Declare Scope eff_scope.
Delimit Scope eff_scope with eff.
Notation "x <- m ;; k" := (bind m (fun x => k))
  (at level 100, m at next level, right associativity) : eff_scope.
Notation "m ;;; k" := (bind m (fun _ => k))
  (at level 100, right associativity) : eff_scope.

(** [a || b] where evaluating [b] has effects: [b] is evaluated only when
    [a] is falsy. *)
Definition js_or_else {T} (a : JSValue) (b : Eff T JSValue) : Eff T JSValue :=
  if truthy a then ret a else b.

Definition trace {T A} (m : Eff T A) : list Event := fst m.
Definition completion {T A} (m : Eff T A) : Completion T A := snd m.

(** The requests sent during a run. *)
Definition requests (tr : list Event) : list FetchRequest :=
  flat_map (fun ev => match ev with EFetch r => [r] | _ => [] end) tr.

(** [await fetch(url, init)]. *)
Definition fetch (net : Network) (req : FetchRequest) : Eff Exn HttpResponse :=
  ([EFetch req],
   match net req with
   | NetworkFailure => Throw FetchFailed
   | Responded r => Return r
   end).

(** [await response.json()]. *)
Definition json (b : Body) : Eff Exn JSValue :=
  match b with
  | NotJSON detail => throw (JSONSyntaxError detail)
  | JSONBody v => ret v
  end.

Definition console_error {T} (label : JSString) (arg : LogArg) : Eff T unit :=
  ([EConsoleError label arg], Return tt).

(** [v.k] for a named property [k].  Reading from [undefined] or [null]
    throws; a plain object answers from its own properties and then from
    [Object.prototype]; arrays and primitives have none of the named
    properties this program reads ([text], [sourceLanguage],
    [targetLanguage], [data], [translations], [translatedText],
    [detectedSourceLanguage], [code], [message]) and answer from
    [Object.prototype] as well. *)
Definition get_property (v : JSValue) (k : JSString) : Eff Exn JSValue :=
  match v with
  | VUndefined => throw (NullishRead NUndefined k)
  | VNull => throw (NullishRead NNull k)
  | VObject props => ret (plain_object_get props k)
  | VBool _ | VNumber _ | VString _ | VArray _ | VBuiltin _ =>
      ret (plain_object_get [] k)
  end.

(** [v[0]]. *)
Definition get_first (v : JSValue) : Eff Exn JSValue :=
  match v with
  | VUndefined => throw (NullishRead NUndefined (js "0"))
  | VNull => throw (NullishRead NNull (js "0"))
  | VArray elems => ret (match elems with x :: _ => x | [] => VUndefined end)
  | VString s => ret (match s with c :: _ => VString [c] | [] => VUndefined end)
  | VObject props => ret (plain_object_get props (js "0"))
  | VBool _ | VNumber _ | VBuiltin _ => ret VUndefined
  end.

(** ToPropertyKey of the value in [o[v]]. *)
Definition to_property_key (v : JSValue) : Eff Exn JSString :=
  match to_js_string v with
  | Some k => ret k
  | None => throw NoPrimitiveValue
  end.

(** SameValueZero on the values of this model; two distinct objects or
    arrays are never the same value. *)
Definition same_value_zero (a b : JSValue) : bool :=
  match a, b with
  | VUndefined, VUndefined => true
  | VNull, VNull => true
  | VBool x, VBool y => Bool.eqb x y
  | VNumber x, VNumber y => x =? y
  | VString x, VString y => js_eqb x y
  | _, _ => false
  end.

(** [Array.prototype.includes]. *)
Definition array_includes (l : list JSValue) (v : JSValue) : bool :=
  existsb (fun x => same_value_zero x v) l.

(* ===================================================================== *)
(** ** Translation Gateway (translationAPI.ts, lines 41-148) *)
(* ===================================================================== *)

(** [type Language = 'en' | 'ja']. *)
Inductive Language : Type := en | ja.

Definition language_code (l : Language) : JSString :=
  match l with en => js "en" | ja => js "ja" end.

(** The object literals thrown by [translate].  [code] and [message] hold
    whatever the expressions of the source evaluate to. *)
Record TranslationAPIError : Type := {
  code : JSValue;
  message : JSValue;
  status : Z
}.

(** What [translate] can throw, and what its [catch] clause can receive. *)
Inductive Thrown : Type :=
| ThrownAPIError (e : TranslationAPIError)
| ThrownExn (x : Exn).

(** [isOnline()]; [navigator] is [None] where [typeof navigator] is
    ['undefined'], else it carries [navigator.onLine]. *)
Definition isOnline (navigator : option bool) : bool :=
  match navigator with
  | None => true
  | Some onLine => onLine
  end.

(** The test of the [catch] clause, lines 121-127: an object with [code],
    [message] and [status] properties.  The literals thrown by [translate]
    have all three; the runtime's error objects have no [code] and no
    [status]. *)
Definition has_api_error_shape (t : Thrown) : bool :=
  match t with
  | ThrownAPIError _ => true
  | ThrownExn _ => false
  end.

Definition thrown_instanceof_TypeError (t : Thrown) : bool :=
  match t with
  | ThrownAPIError _ => false
  | ThrownExn x => instanceof_TypeError x
  end.

(** The request of lines 94-104. *)
Definition translate_request (text : JSString) (sourceLanguage targetLanguage : Language)
  : FetchRequest :=
  {| req_url := js "/api/translate";
     req_method := js "POST";
     req_headers := [(js "Content-Type", js "application/json")];
     req_body := VObject [ (js "text", VString text);
                           (js "sourceLanguage", VString (language_code sourceLanguage));
                           (js "targetLanguage", VString (language_code targetLanguage)) ] |}.

(** The [try] block, lines 93-118. *)
Definition translate_try (net : Network)
    (text : JSString) (sourceLanguage targetLanguage : Language)
  : Eff Thrown JSValue :=
  (response <- raise_as ThrownExn
                 (fetch net (translate_request text sourceLanguage targetLanguage)) ;;
   data <- raise_as ThrownExn (json (resp_body response)) ;;
   if negb (resp_ok response) then
     data_code <- raise_as ThrownExn (get_property data (js "code")) ;;
     data_message <- raise_as ThrownExn (get_property data (js "message")) ;;
     error_message <-
       js_or_else data_message
         (key <- raise_as ThrownExn (to_property_key data_code) ;;
          ret (getErrorMessage key)) ;;
     throw (ThrownAPIError
              {| code := js_or data_code (VString ERROR_CODES.API_ERROR);
                 message := error_message;
                 status := resp_status response |})
   else ret data)%eff.

(** The [catch] clause, lines 119-148. *)
Definition translate_catch (error : Thrown) : Eff Thrown JSValue :=
  if has_api_error_shape error then throw error
  else if thrown_instanceof_TypeError error then
    throw (ThrownAPIError
             {| code := VString ERROR_CODES.NETWORK_ERROR;
                message := getErrorMessage ERROR_CODES.NETWORK_ERROR;
                status := 0 |})
  else
    throw (ThrownAPIError
             {| code := VString ERROR_CODES.API_ERROR;
                message := getErrorMessage ERROR_CODES.API_ERROR;
                status := 500 |}).

Definition translate (navigator : option bool) (net : Network)
    (text : JSString) (sourceLanguage targetLanguage : Language)
  : Eff Thrown JSValue :=
  if negb (isOnline navigator) then
    throw (ThrownAPIError
             {| code := VString ERROR_CODES.OFFLINE;
                message := getErrorMessage ERROR_CODES.OFFLINE;
                status := 0 |})
  else if negb (truthy (VString text)) || (js_length (trim text) =? 0) then
    throw (ThrownAPIError
             {| code := VString ERROR_CODES.INVALID_INPUT;
                message := VString (js "Please enter text to translate.");
                status := 400 |})
  else if 5000 <? js_length text then
    throw (ThrownAPIError
             {| code := VString ERROR_CODES.INVALID_INPUT;
                message := VString (js "Text exceeds maximum length of 5000 characters.");
                status := 400 |})
  else
    try_catch (translate_try net text sourceLanguage targetLanguage) translate_catch.

(* ===================================================================== *)
(** ** Proxy Endpoint (route handler POST, src/unnamed/part_000) *)
(* ===================================================================== *)

Module Route.

Module ERROR_CODES.
Definition INVALID_INPUT : JSString := js "INVALID_INPUT".
Definition RATE_LIMIT : JSString := js "RATE_LIMIT".
Definition API_ERROR : JSString := js "API_ERROR".
Definition AUTH_ERROR : JSString := js "AUTH_ERROR".
Definition NETWORK_ERROR : JSString := js "NETWORK_ERROR".
End ERROR_CODES.

(** The error object literals of the handler. *)
Record ErrorBody : Type := {
  code : JSString;
  message : JSString;
  status : Z
}.

Inductive ResponseBody : Type :=
| Failure (e : ErrorBody)
| Success (translatedText detectedSourceLanguage : JSValue).

(** A response: the value serialised as its JSON body, and its HTTP status. *)
Record NextResponse : Type := {
  body : ResponseBody;
  http_status : Z
}.

(** The statuses of responses that have no body. *)
Definition null_body_statuses : list Z := [101; 103; 204; 205; 304].

(** [NextResponse.json(body, { status })]; without an init the status is
    200.  The [Response] constructor behind it throws a [RangeError] for a
    status outside 200-599, and a [TypeError] when a body comes with a
    status that allows none. *)
Definition NextResponse_json (b : ResponseBody) (init_status : option Z)
  : Eff Exn NextResponse :=
  let st := match init_status with Some st => st | None => 200 end in
  if (st <? 200) || (599 <? st) then throw StatusOutOfRange
  else if existsb (Z.eqb st) null_body_statuses then throw (NullBodyStatus st)
  else ret {| body := b; http_status := st |}.

(** The statuses [NextResponse.json] accepts. *)
Definition status_carriable (st : Z) : bool :=
  (200 <=? st) && (st <=? 599) && negb (existsb (Z.eqb st) null_body_statuses).

(** [process.env]. *)
Record Env : Type := {
  GOOGLE_TRANSLATE_API_KEY : option JSString
}.

Record NextRequest : Type := {
  request_body : Body
}.

(** An environment variable as a value: a string, or [undefined]. *)
Definition env_value (x : option JSString) : JSValue :=
  match x with Some s => VString s | None => VUndefined end.

(** [`${x}`]. *)
Definition interpolate (x : option JSString) : JSString :=
  match x with Some s => s | None => js "undefined" end.

Definition validLanguages : list JSValue := [VString (js "en"); VString (js "ja")].

(** The receiver of [text.trim()] and [text.length]; the handler reaches
    them only when [typeof text === 'string']. *)
Definition string_of (v : JSValue) : JSString :=
  match v with VString s => s | _ => [] end.

(** [const { text, sourceLanguage, targetLanguage } = body]. *)
Definition destructure_body (b : JSValue) : Eff Exn (JSValue * JSValue * JSValue) :=
  match b with
  | VUndefined => throw (NullishDestructure NUndefined (js "text"))
  | VNull => throw (NullishDestructure NNull (js "text"))
  | _ =>
      (text <- get_property b (js "text") ;;
       sourceLanguage <- get_property b (js "sourceLanguage") ;;
       targetLanguage <- get_property b (js "targetLanguage") ;;
       ret (text, sourceLanguage, targetLanguage))%eff
  end.

(** The request of lines 103-116. *)
Definition google_request (apiKey : option JSString)
    (text sourceLanguage targetLanguage : JSValue) : FetchRequest :=
  {| req_url := js "https://translation.googleapis.com/language/translate/v2?key="
                  ++ interpolate apiKey;
     req_method := js "POST";
     req_headers := [(js "Content-Type", js "application/json")];
     req_body := VObject [ (js "q", text);
                           (js "source", sourceLanguage);
                           (js "target", targetLanguage);
                           (js "format", VString (js "text")) ] |}.

(** The response whose body is the error object [{ code, message, status }]
    and whose HTTP status is that [status]. *)
Definition error_response (c m : JSString) (st : Z) : NextResponse :=
  {| body := Failure {| code := c; message := m; status := st |};
     http_status := st |}.

(** [NextResponse.json({ code, message, status }, { status })], the form of
    every error [return] of the handler. *)
Definition json_error (c m : JSString) (st : Z) : Eff Exn NextResponse :=
  NextResponse_json (Failure {| code := c; message := m; status := st |}) (Some st).

(** The call to the provider and the mapping of its answer, lines 102-162. *)
Definition call_provider (net : Network) (apiKey : option JSString)
    (text sourceLanguage targetLanguage : JSValue) : Eff Exn NextResponse :=
  (googleResponse <-
     fetch net (google_request apiKey text sourceLanguage targetLanguage) ;;
   if resp_status googleResponse =? 429 then
     json_error ERROR_CODES.RATE_LIMIT
       (js "Too many requests. Please wait a moment and try again.") 429
   else if (resp_status googleResponse =? 401)
           || (resp_status googleResponse =? 403) then
     console_error (js "Google API authentication error:")
                   (LogStatus (resp_status googleResponse)) ;;;
     json_error ERROR_CODES.AUTH_ERROR
       (js "Translation service configuration error.")
       (resp_status googleResponse)
   else if negb (resp_ok googleResponse) then
     console_error (js "Google API error:")
                   (LogStatus (resp_status googleResponse)) ;;;
     json_error ERROR_CODES.API_ERROR
       (js "Translation service is temporarily unavailable.")
       (resp_status googleResponse)
   else
     data <- json (resp_body googleResponse) ;;
     data_data <- get_property data (js "data") ;;
     translations <- get_property data_data (js "translations") ;;
     translation <- get_first translations ;;
     translatedText <- get_property translation (js "translatedText") ;;
     detectedSourceLanguage <-
       get_property translation (js "detectedSourceLanguage") ;;
     NextResponse_json (Success translatedText detectedSourceLanguage) None
  )%eff.

(** The five validation checks, lines 38-100, then [call_provider]. *)
Definition validate_and_call (env : Env) (net : Network)
    (text sourceLanguage targetLanguage : JSValue) : Eff Exn NextResponse :=
  (if negb (truthy text) || negb (is_string text) then
     json_error ERROR_CODES.INVALID_INPUT
       (js "Please enter valid text to translate.") 400
   else if js_length (trim (string_of text)) =? 0 then
     json_error ERROR_CODES.INVALID_INPUT
       (js "Please enter text to translate.") 400
   else if 5000 <? js_length (string_of text) then
     json_error ERROR_CODES.INVALID_INPUT
       (js "Text exceeds maximum length of 5000 characters.") 400
   else if negb (array_includes validLanguages sourceLanguage)
           || negb (array_includes validLanguages targetLanguage) then
     json_error ERROR_CODES.INVALID_INPUT
       (js "Invalid language selection.") 400
   else
     let apiKey := GOOGLE_TRANSLATE_API_KEY env in
     if negb (truthy (env_value apiKey)) then
       console_error (js "GOOGLE_TRANSLATE_API_KEY is not configured") LogNothing ;;;
       json_error ERROR_CODES.AUTH_ERROR
         (js "Translation service configuration error.") 500
     else
       call_provider net apiKey text sourceLanguage targetLanguage
  )%eff.

(** The [try] block, lines 34-162: the body is parsed and destructured,
    lines 35-36, then validated and forwarded. *)
Definition POST_try (request : NextRequest) (env : Env) (net : Network)
  : Eff Exn NextResponse :=
  (b <- json (request_body request) ;;
   fields <- destructure_body b ;;
   let '(text, sourceLanguage, targetLanguage) := fields in
   validate_and_call env net text sourceLanguage targetLanguage
  )%eff.

(** The [catch] clause, lines 163-186. *)
Definition POST_catch (error : Exn) : Eff Exn NextResponse :=
  (console_error (js "Translation API error:") (LogExn error) ;;;
   if instanceof_TypeError error && includes (exn_message error) (js "fetch") then
     json_error ERROR_CODES.NETWORK_ERROR
       (js "Unable to connect. Please check your internet connection.") 503
   else
     json_error ERROR_CODES.API_ERROR
       (js "Translation service is temporarily unavailable.") 500)%eff.

Definition POST (request : NextRequest) (env : Env) (net : Network)
  : Eff Exn NextResponse :=
  try_catch (POST_try request env net) POST_catch.

End Route.

(* ===================================================================== *)
(** ** History Store *)
(* ===================================================================== *)

Module HistoryService.

(** The record the property tests generate (translator.property.test.ts,
    lines 21-31). *)
Record TranslationEntry : Type := {
  id : JSString;
  sourceText : JSString;
  translatedText : JSString;
  sourceLanguage : Language;
  targetLanguage : Language;
  romanization : option JSString;
  timestamp : Z
}.

(** Modelled from the spec: the invariant of a TranslationEntry, whose
    type declaration (../types) is not among the sources: the source
    language differs from the target language. *)
Definition valid_entry (e : TranslationEntry) : Prop :=
  sourceLanguage e <> targetLanguage e.

(** Modelled from the spec: the local key-value persistence primitive of
    services/historyService, which is not among the sources; the history is
    one ordered sequence of entries kept under one key. *)
Definition HISTORY_KEY : string := "translation-history".

(** Modelled from the spec: [loadHistory] of services/historyService (not
    among the sources): the ordered sequence of all persisted entries, the
    empty sequence for an empty or missing store. *)
Definition loadHistory (store : gmap string (list TranslationEntry))
  : list TranslationEntry :=
  match store !! HISTORY_KEY with
  | Some entries => entries
  | None => []
  end.

Definition has_id (i : JSString) (e : TranslationEntry) : bool := js_eqb (id e) i.

(** Modelled from the spec: "appends or upserts the entry keyed by its
    identifier" (services/historyService is not among the sources): an entry
    with the same identifier is replaced in place, a new one is appended. *)
Definition upsert (e : TranslationEntry) (entries : list TranslationEntry)
  : list TranslationEntry :=
  if existsb (has_id (id e)) entries
  then map (fun x => if has_id (id e) x then e else x) entries
  else entries ++ [e].

(** Modelled from the spec: [saveEntry] of services/historyService (not
    among the sources). *)
Definition saveEntry (e : TranslationEntry)
    (store : gmap string (list TranslationEntry))
  : gmap string (list TranslationEntry) :=
  <[HISTORY_KEY := upsert e (loadHistory store)]> store.

(** Modelled from the spec: [clearAll] of services/historyService (not
    among the sources): removes every entry. *)
Definition clearAll (store : gmap string (list TranslationEntry))
  : gmap string (list TranslationEntry) :=
  delete HISTORY_KEY store.

(** An entry as the property test generates them. *)
Definition sample_entry : TranslationEntry :=
  {| id := js "3f2c";
     sourceText := js "hello";
     translatedText := [12371; 12435; 12395; 12385; 12399]%N;
     sourceLanguage := en;
     targetLanguage := ja;
     romanization := Some (js "konnichiwa");
     timestamp := 1700000000000 |}.

End HistoryService.

(* ===================================================================== *)
(** ** Named results *)
(* ===================================================================== *)

(** The three errors of the local checks of [translate], lines 65-91. *)
Definition OFFLINE_error : TranslationAPIError :=
  {| code := VString ERROR_CODES.OFFLINE;
     message := VString (js "You are offline. Please check your internet connection.");
     status := 0 |}.

Definition empty_text_error : TranslationAPIError :=
  {| code := VString ERROR_CODES.INVALID_INPUT;
     message := VString (js "Please enter text to translate.");
     status := 400 |}.

Definition long_text_error : TranslationAPIError :=
  {| code := VString ERROR_CODES.INVALID_INPUT;
     message := VString (js "Text exceeds maximum length of 5000 characters.");
     status := 400 |}.

(** The two errors of the [catch] clause of [translate], lines 131-147. *)
Definition NETWORK_ERROR_error : TranslationAPIError :=
  {| code := VString ERROR_CODES.NETWORK_ERROR;
     message := VString (js "Unable to connect. Please check your internet connection.");
     status := 0 |}.

Definition API_ERROR_error : TranslationAPIError :=
  {| code := VString ERROR_CODES.API_ERROR;
     message := API_ERROR_message;
     status := 500 |}.

(** The input passes the three local checks of [translate]. *)
Definition passes_local_checks (navigator : option bool) (text : JSString) : Prop :=
  isOnline navigator = true /\ trim text <> [] /\ js_length text <= 5000.

(** The route handler's statements about a request, written over [Route]. *)
Module RouteSpec.
Import Route.

(** One of the two supported language codes. *)
Definition valid_language (v : JSValue) : Prop :=
  v = VString (js "en") \/ v = VString (js "ja").

(** The request body parses to a value whose three fields are [text],
    [sourceLanguage] and [targetLanguage]. *)
Definition carries (request : NextRequest) (text sourceLanguage targetLanguage : JSValue)
  : Prop :=
  exists b, request_body request = JSONBody b
    /\ destructure_body b = ret (text, sourceLanguage, targetLanguage).

(** The request passes all five validation checks: its text is the string
    [text], not blank and at most 5000 code units long, both languages are
    supported, and the credential [key] is configured. *)
Definition accepted (request : NextRequest) (env : Env)
    (text : JSString) (sourceLanguage targetLanguage : JSValue) (key : JSString)
  : Prop :=
  carries request (VString text) sourceLanguage targetLanguage
  /\ trim text <> []
  /\ js_length text <= 5000
  /\ valid_language sourceLanguage
  /\ valid_language targetLanguage
  /\ GOOGLE_TRANSLATE_API_KEY env = Some key
  /\ key <> [].

(** The codes the handler uses, all of them codes of the taxonomy. *)
Definition handler_codes : list JSString :=
  [ ERROR_CODES.INVALID_INPUT; ERROR_CODES.RATE_LIMIT; ERROR_CODES.API_ERROR;
    ERROR_CODES.AUTH_ERROR; ERROR_CODES.NETWORK_ERROR ].

(** The statuses the handler sets by itself. *)
Definition fixed_statuses : list Z := [400; 401; 403; 429; 500; 503].

(** The exceptions that can reach the [catch] clause, by the statement that
    raises them. *)
Definition raised_in_try (e : Exn) : Prop :=
  match e with
  | FetchFailed => True
  | JSONSyntaxError _ => True
  | NullishDestructure _ prop => prop = js "text"
  | NullishRead _ prop =>
      In prop [ js "data"; js "translations"; js "0"; js "translatedText";
                js "detectedSourceLanguage" ]
  | NoPrimitiveValue => False
  | StatusOutOfRange => True
  | NullBodyStatus st => In st null_body_statuses
  end.

Definition NETWORK_ERROR_response : NextResponse :=
  error_response ERROR_CODES.NETWORK_ERROR
    (js "Unable to connect. Please check your internet connection.") 503.

Definition API_ERROR_response : NextResponse :=
  error_response ERROR_CODES.API_ERROR
    (js "Translation service is temporarily unavailable.") 500.

(** The status is the one the provider answered with to a request of
    [sent]. *)
Definition passthrough_status (net : Network) (sent : list FetchRequest) (st : Z)
  : Prop :=
  exists req r, In req sent /\ net req = Responded r /\ st = resp_status r.

(** The shape of an error response: a code of the taxonomy, a non-empty
    message, a [status] field equal to the HTTP status, which is one of the
    fixed statuses or the status of the provider's answer to a request that
    was sent, and in either case not a success status. *)
Definition error_shape (net : Network) (sent : list FetchRequest)
    (e : ErrorBody) (st : Z) : Prop :=
  In (code e) handler_codes
  /\ message e <> []
  /\ status e = st
  /\ (In st fixed_statuses \/ passthrough_status net sent st)
  /\ (200 <=? st) && (st <=? 299) = false.

Definition response_shape (net : Network) (sent : list FetchRequest)
    (resp : NextResponse) : Prop :=
  match body resp with
  | Failure e => error_shape net sent e (http_status resp)
  | Success _ _ => http_status resp = 200
  end.

(** The handler's answer when a validation check fails with message [m]:
    INVALID_INPUT, status 400, and no event at all. *)
Definition rejected (m : JSString) : Eff Exn NextResponse :=
  ([], Return (error_response ERROR_CODES.INVALID_INPUT m 400)).

(** A well-formed request, a configured environment and three networks:
    one that cannot be reached, one that answers with [status] and a JSON
    body, one whose provider translates. *)
Definition sample_body (text : JSString) : JSValue :=
  VObject [ (js "text", VString text);
            (js "sourceLanguage", VString (js "en"));
            (js "targetLanguage", VString (js "ja")) ].

Definition sample_request (text : JSString) : NextRequest :=
  {| request_body := JSONBody (sample_body text) |}.

Definition sample_env : Env := {| GOOGLE_TRANSLATE_API_KEY := Some (js "k3y") |}.

Definition unreachable : Network := fun _ => NetworkFailure.

Definition answering (st : Z) (v : JSValue) : Network :=
  fun _ => Responded {| resp_status := st; resp_body := JSONBody v |}.

Definition provider_answer (translations : list JSValue) : JSValue :=
  VObject [ (js "data", VObject [ (js "translations", VArray translations) ]) ].

Definition sample_translation : JSValue :=
  VObject [ (js "translatedText", VString [12371; 12435; 12395; 12385; 12399]%N);
            (js "detectedSourceLanguage", VString (js "en")) ].

End RouteSpec.

(** A response of the route handler as [fetch] delivers it to the gateway:
    its HTTP status, and its body after [JSON.stringify] and [JSON.parse];
    properties whose value is [undefined] are not serialised. *)
Definition serialised (b : Route.ResponseBody) : JSValue :=
  match b with
  | Route.Failure e =>
      VObject [ (js "code", VString (Route.code e));
                (js "message", VString (Route.message e));
                (js "status", VNumber (Route.status e)) ]
  | Route.Success translated detected =>
      VObject (List.filter (fun kv => match snd kv with VUndefined => false | _ => true end)
                      [ (js "translatedText", translated);
                        (js "detectedSourceLanguage", detected) ])
  end.

Definition served (resp : Route.NextResponse) : HttpResponse :=
  {| resp_status := Route.http_status resp;
     resp_body := JSONBody (serialised (Route.body resp)) |}.

(** A computation that sends no request. *)
Definition silent {T A} (m : Eff T A) : Prop := requests (trace m) = [].

(** Hoare-style reading of an effectful computation: if it returns [a] then
    [Q a], if it throws [t] then [E t]. *)
Definition ensures {T A} (m : Eff T A) (Q : A -> Prop) (E : T -> Prop) : Prop :=
  match completion m with
  | Return a => Q a
  | Throw t => E t
  end.

(* ===================================================================== *)
(** ** The endpoint as the gateway reaches it *)
(* ===================================================================== *)

(** The request the route handler receives for a request of the gateway.
    The body the gateway posts holds three strings, which [JSON.stringify]
    and [request.json()] give back as they are. *)
Definition request_of (req : FetchRequest) : Route.NextRequest :=
  {| Route.request_body := JSONBody (req_body req) |}.

(** The network of the gateway when [/api/translate] is served by the route
    handler with environment [env] and provider network [provider].  Other
    routes and methods are not served by this handler; an exception escaping
    the handler would be answered by the framework with a 500 page. *)
Definition endpoint (env : Route.Env) (provider : Network) : Network :=
  fun req =>
    if js_eqb (req_url req) (js "/api/translate")
       && js_eqb (req_method req) (js "POST")
    then
      match completion (Route.POST (request_of req) env provider) with
      | Return resp => Responded (served resp)
      | Throw _ =>
          Responded {| resp_status := 500;
                       resp_body := NotJSON (js "Internal Server Error") |}
      end
    else
      Responded {| resp_status := 404; resp_body := NotJSON (js "Not Found") |}.

(** The [console.error] calls of a run, in order. *)
Definition console_log (tr : list Event) : list (JSString * LogArg) :=
  flat_map (fun ev => match ev with
                      | EConsoleError label arg => [(label, arg)]
                      | EFetch _ => []
                      end) tr.

(** Two runs that complete alike and log alike; they may differ in the
    requests they send. *)
Definition same_outcome {T A} (m1 m2 : Eff T A) : Prop :=
  completion m1 = completion m2
  /\ console_log (trace m1) = console_log (trace m2).

(** A status [NextResponse.json] refuses for the error response of the
    handler: below 200, above 599, or 304. *)
Definition refused_status (st : Z) : bool :=
  (st <? 200) || (599 <? st) || (st =? 304).

(** The provider answered one of the requests of [sent] with a refused
    status. *)
Definition provider_status_refused (net : Network) (sent : list FetchRequest)
  : bool :=
  existsb (fun req => match net req with
                      | Responded r => refused_status (resp_status r)
                      | NetworkFailure => false
                      end) sent.

(** The number of [console.error] lines the route handler writes for a
    response, given the requests it sent: none for a translation and for
    the two codes that blame the caller, INVALID_INPUT and RATE_LIMIT; for
    every other error one, or two when the provider answered with a refused
    status, the line of that status and the line of the [catch] clause. *)
Definition expected_log_lines (net : Network) (sent : list FetchRequest)
    (resp : Route.NextResponse) : nat :=
  match Route.body resp with
  | Route.Success _ _ => 0%nat
  | Route.Failure e =>
      if js_eqb (Route.code e) (js "INVALID_INPUT")
         || js_eqb (Route.code e) (js "RATE_LIMIT")
      then 0%nat
      else if provider_status_refused net sent then 2%nat else 1%nat
  end.

(** A run of the [try] block that sent [sent]: if it returns, no status was
    refused and its log has the expected number of lines; if it throws, its
    log is empty, or has the one line of the refused status. *)
Definition logs_as_expected (net : Network) (sent : list FetchRequest)
    (m : Eff Exn Route.NextResponse) : Prop :=
  match completion m with
  | Return resp =>
      provider_status_refused net sent = false
      /\ length (console_log (trace m)) = expected_log_lines net sent resp
  | Throw _ =>
      length (console_log (trace m))
      = if provider_status_refused net sent then 1%nat else 0%nat
  end.

(** A run that writes no log. *)
Definition log_free {T A} (m : Eff T A) : Prop := console_log (trace m) = [].

(** The check of the property test "all error codes have distinct,
    meaningful messages" (translator.property.test.ts, lines 334-340). *)
Definition hasUserFriendlyContent (msg : JSString) : bool :=
  includes msg (js "Please")
  || includes msg (js "error")
  || includes msg (js "unavailable")
  || includes msg (js "connection")
  || includes msg (js "offline")
  || includes msg (js "wait").

(* ===================================================================== *)
(** ** History list helpers (TranslationHistory component, src/unnamed/part_001) *)
(* ===================================================================== *)

Module TranslationHistory.

(** [text.slice(0, end)]: a negative [end] counts from the end of the
    string, and the result is clamped to the string. *)
Definition slice_from_start (text : JSString) (e : Z) : JSString :=
  let len := js_length text in
  let to := if e <? 0 then Z.max (len + e) 0 else Z.min e len in
  firstn (Z.to_nat to) text.

(** [truncateText], lines 49-52. *)
Definition truncateText (text : JSString) (maxLength : Z) : JSString :=
  if js_length text <=? maxLength then text
  else slice_from_start text maxLength ++ js "...".

(** The largest time value of a [Date], in milliseconds either side of the
    epoch. *)
Definition MAX_TIME : Z := 8640000000000000.

(** [new Date(value).getTime()] for an integral [value]: the value itself,
    or [None] for the NaN of an invalid date. *)
Definition Date_getTime (value : Z) : option Z :=
  if Z.abs value <=? MAX_TIME then Some value else None.

(** [formatTimestamp], lines 30-44.  The clock [now] read by [new Date()]
    and the locale-dependent [toLocaleDateString] are inputs; the latter
    receives the time value of the date, [None] for an invalid date.
    With an invalid date every difference is NaN and every comparison
    false, which leaves the last [return].  The differences are integers
    and [Math.floor] of a quotient is the floor division; the doubles of the
    source agree with it wherever a branch is decided or a number printed,
    all thresholds being far below 2^53. *)
Definition formatTimestamp (toLocaleDateString : option Z -> JSString)
    (now timestamp : Z) : JSString :=
  match Date_getTime timestamp with
  | None => toLocaleDateString None
  | Some t =>
      let diffMs := now - t in
      let diffMins := diffMs / 60000 in
      let diffHours := diffMs / 3600000 in
      let diffDays := diffMs / 86400000 in
      if diffMins <? 1 then js "Just now"
      else if diffMins <? 60 then decimal diffMins ++ js "m ago"
      else if diffHours <? 24 then decimal diffHours ++ js "h ago"
      else if diffDays <? 7 then decimal diffDays ++ js "d ago"
      else toLocaleDateString (Some t)
  end.

End TranslationHistory.

(* ===================================================================== *)
(** ** History Store and language pair, as the property tests use them *)
(* ===================================================================== *)

Module HistoryTests.
Import HistoryService.

(** Modelled from the spec: [deleteEntry] of services/historyService (not
    among the sources): removes the entry with that identifier if present;
    all other entries are unaffected and keep their order. *)
Definition deleteEntry (i : JSString)
    (store : gmap string (list TranslationEntry))
  : gmap string (list TranslationEntry) :=
  <[HISTORY_KEY := List.filter (fun e => negb (has_id i e)) (loadHistory store)]> store.

(** The loop of the property tests, lines 178-180 and 224-226:
    [for (const entry of uniqueEntries) await saveEntry(entry)]. *)
Definition save_all (entries : list TranslationEntry)
    (store : gmap string (list TranslationEntry))
  : gmap string (list TranslationEntry) :=
  fold_left (fun st e => saveEntry e st) entries store.

(** Modelled from the spec: [getOppositeLanguage] of ../types (not among
    the sources): the other language of the pair, as the property test
    expects it (lines 49-54). *)
Definition getOppositeLanguage (l : Language) : Language :=
  match l with en => ja | ja => en end.

(** A second entry, with another identifier. *)
Definition second_entry : TranslationEntry :=
  {| id := js "9a1b";
     sourceText := [12354; 12426; 12364; 12392; 12358]%N;
     translatedText := js "thank you";
     sourceLanguage := ja;
     targetLanguage := en;
     romanization := None;
     timestamp := 1700000060000 |}.

End HistoryTests.

(* ===================================================================== *)
(** * Properties *)
(* ===================================================================== *)

(** ** Strings *)

Lemma js_eqb_eq (a b : JSString) : js_eqb a b = true <-> a = b.
Proof.
  revert b. induction a as [|x a IH]; intros [|y b]; simpl; split;
    try congruence; try reflexivity.
  - intros [Hxy Hab]%andb_prop. apply N.eqb_eq in Hxy. apply IH in Hab.
    congruence.
  - intros [= -> ->]. rewrite N.eqb_refl. simpl. now apply IH.
Qed.

Lemma js_eqb_refl (a : JSString) : js_eqb a a = true.
Proof. now apply js_eqb_eq. Qed.

Lemma trim_start_nil_iff (s : JSString) :
  trim_start s = [] <-> forallb is_js_whitespace s = true.
Proof.
  induction s as [|c s IH]; simpl; [tauto|].
  destruct (is_js_whitespace c); simpl; [exact IH|].
  split; discriminate.
Qed.

(** A string trims to the empty string exactly when it consists of
    whitespace only. *)
Lemma trim_nil_iff (s : JSString) :
  trim s = [] <-> forallb is_js_whitespace s = true.
Proof.
  unfold trim, trim_end. split.
  - intros H. apply (f_equal (@rev N)) in H. rewrite rev_involutive in H.
    simpl in H. apply trim_start_nil_iff in H.
    rewrite forallb_forall in H.
    destruct (trim_start s) as [|c r] eqn:E.
    + now apply trim_start_nil_iff.
    + exfalso. assert (Hc : is_js_whitespace c = true).
      { apply H. apply in_rev. rewrite rev_involutive. now left. }
      clear H. induction s as [|d s IH]; simpl in E; [discriminate|].
      destruct (is_js_whitespace d) eqn:Ed; [now apply IH|].
      injection E as -> ->. congruence.
  - intros H. apply trim_start_nil_iff in H. now rewrite H.
Qed.

(** ** Property reads *)

Lemma own_property_None (props : list (JSString * JSValue)) (k : JSString) :
  ~ In k (map fst props) -> own_property props k = None.
Proof.
  induction props as [|[k' v] props IH]; simpl; [reflexivity|].
  intros H. destruct (js_eqb k' k) eqn:E.
  - apply js_eqb_eq in E. tauto.
  - apply IH. tauto.
Qed.

(** ** Error Normalizer *)

(** Each of the six codes has its fixed message. *)
Lemma getErrorMessage_known :
  getErrorMessage ERROR_CODES.INVALID_INPUT
    = VString (js "Please enter valid text to translate.")
  /\ getErrorMessage ERROR_CODES.RATE_LIMIT
    = VString (js "Too many requests. Please wait a moment and try again.")
  /\ getErrorMessage ERROR_CODES.API_ERROR = API_ERROR_message
  /\ getErrorMessage ERROR_CODES.AUTH_ERROR
    = VString (js "Translation service configuration error.")
  /\ getErrorMessage ERROR_CODES.NETWORK_ERROR
    = VString (js "Unable to connect. Please check your internet connection.")
  /\ getErrorMessage ERROR_CODES.OFFLINE
    = VString (js "You are offline. Please check your internet connection.").
Proof. repeat split; reflexivity. Qed.

(** A code that is neither in the taxonomy nor the name of a property of
    [Object.prototype] gets the API_ERROR message. *)
Lemma getErrorMessage_unknown (c : JSString) :
  ~ In c taxonomy -> ~ In c reserved_names ->
  getErrorMessage c = API_ERROR_message.
Proof.
  intros Htax Hres. unfold getErrorMessage, plain_object_get.
  rewrite (own_property_None ERROR_MESSAGES c) by exact Htax.
  rewrite (own_property_None Object_prototype c) by exact Hres.
  reflexivity.
Qed.

Lemma API_ERROR_message_nonempty :
  exists s, API_ERROR_message = VString s /\ s <> [].
Proof. eexists. split; [reflexivity | discriminate]. Qed.

(** C1. On the names that every object inherits from [Object.prototype]
    (here [constructor], [toString] and [__proto__]), which are not codes of
    the taxonomy, [getErrorMessage] does not return the API_ERROR fallback
    message: the property read finds the inherited built-in, which is
    truthy, and returns it; the result is not even a string. *)
Theorem getErrorMessage_reserved_names_inherited :
  ~ In (js "constructor") taxonomy
  /\ getErrorMessage (js "constructor") = VBuiltin "Object"
  /\ getErrorMessage (js "toString") = VBuiltin "Object.prototype.toString"
  /\ getErrorMessage (js "__proto__") = VBuiltin "Object.prototype"
  /\ getErrorMessage (js "constructor") <> API_ERROR_message
  /\ is_string (getErrorMessage (js "constructor")) = false.
Proof.
  split; [|repeat split; try reflexivity; discriminate].
  vm_compute. intuition discriminate.
Qed.

(** ** History Store *)

Section HistoryStore.
Import HistoryService.

Implicit Types (e : TranslationEntry) (store : gmap string (list TranslationEntry)).

Lemma loadHistory_saveEntry e store :
  loadHistory (saveEntry e store) = upsert e (loadHistory store).
Proof. unfold loadHistory at 1, saveEntry. now rewrite lookup_insert_eq. Qed.

Lemma loadHistory_clearAll store : loadHistory (clearAll store) = [].
Proof. unfold loadHistory, clearAll. now rewrite lookup_delete_eq. Qed.

Lemma upsert_In e (entries : list TranslationEntry) : In e (upsert e entries).
Proof.
  unfold upsert. destruct (existsb (has_id (id e)) entries) eqn:Ex.
  - apply existsb_exists in Ex as (x & Hx & Hid).
    apply in_map_iff. exists x. now rewrite Hid.
  - apply in_or_app. right. now left.
Qed.

(** Looking the saved entry up by its identifier, as the property test
    does with [history.find], yields the saved entry itself. *)
Lemma upsert_find e (entries : list TranslationEntry) :
  List.find (has_id (id e)) (upsert e entries) = Some e.
Proof.
  assert (Hself : has_id (id e) e = true) by apply js_eqb_refl.
  unfold upsert. destruct (existsb (has_id (id e)) entries) eqn:Ex.
  - induction entries as [|x entries IH]; simpl in *; [discriminate|].
    destruct (has_id (id e) x) eqn:Hx; simpl.
    + now rewrite Hself.
    + rewrite Hx. now apply IH.
  - induction entries as [|x entries IH]; simpl in *.
    + now rewrite Hself.
    + apply orb_false_elim in Ex as [Hx Ex]. rewrite Hx. now apply IH.
Qed.

Lemma saveEntry_contains e store : In e (loadHistory (saveEntry e store)).
Proof. rewrite loadHistory_saveEntry. apply upsert_In. Qed.

Lemma saveEntry_find e store :
  List.find (has_id (id e)) (loadHistory (saveEntry e store)) = Some e.
Proof. rewrite loadHistory_saveEntry. apply upsert_find. Qed.

(** C2. Round trip: after [saveEntry E], [loadHistory] contains an entry
    with the identifier of [E] whose sourceText, translatedText,
    sourceLanguage, targetLanguage, romanization and timestamp are those of
    [E], whatever the store held before. *)
Theorem saveEntry_loadHistory_round_trip e store :
  valid_entry e ->
  exists e', In e' (loadHistory (saveEntry e store))
    /\ id e' = id e
    /\ sourceText e' = sourceText e
    /\ translatedText e' = translatedText e
    /\ sourceLanguage e' = sourceLanguage e
    /\ targetLanguage e' = targetLanguage e
    /\ romanization e' = romanization e
    /\ timestamp e' = timestamp e.
Proof.
  intros _. exists e. split; [apply saveEntry_contains|]. repeat split.
Qed.

Lemma saveEntry_loadHistory_round_trip_witness :
  valid_entry sample_entry
  /\ exists e', In e' (loadHistory (saveEntry sample_entry (clearAll ∅)))
       /\ id e' = id sample_entry
       /\ sourceText e' = sourceText sample_entry
       /\ translatedText e' = translatedText sample_entry
       /\ sourceLanguage e' = sourceLanguage sample_entry
       /\ targetLanguage e' = targetLanguage sample_entry
       /\ romanization e' = romanization sample_entry
       /\ timestamp e' = timestamp sample_entry.
Proof.
  assert (H : valid_entry sample_entry) by (unfold valid_entry; simpl; discriminate).
  split; [exact H|].
  exact (saveEntry_loadHistory_round_trip sample_entry (clearAll ∅) H).
Defined.

End HistoryStore.

(** ** Translation Gateway: local preconditions *)

Section GatewayPreconditions.

Variables (navigator : option bool) (net : Network).
Variables (text : JSString) (sourceLanguage targetLanguage : Language).

(** C3. The three local preconditions of [translate], in order: offline
    gives OFFLINE with status 0; otherwise text that is empty after trimming
    gives INVALID_INPUT, 400, "Please enter text to translate."; otherwise
    text longer than 5000 code units gives INVALID_INPUT, 400, "Text exceeds
    maximum length of 5000 characters.".  On each of these paths the run
    emits no event at all, so no request is sent. *)
Theorem translate_preconditions :
  (isOnline navigator = false ->
     translate navigator net text sourceLanguage targetLanguage
       = ([], Throw (ThrownAPIError OFFLINE_error)))
  /\ (isOnline navigator = true -> trim text = [] ->
     translate navigator net text sourceLanguage targetLanguage
       = ([], Throw (ThrownAPIError empty_text_error)))
  /\ (isOnline navigator = true -> trim text <> [] -> 5000 < js_length text ->
     translate navigator net text sourceLanguage targetLanguage
       = ([], Throw (ThrownAPIError long_text_error))).
Proof.
  unfold translate. repeat split.
  - intros ->. reflexivity.
  - intros -> Ht. rewrite Ht. simpl. now rewrite orb_true_r.
  - intros -> Ht Hlen. simpl.
    destruct text as [|c r] eqn:E; [now elim Ht|]. rewrite <- E in *. simpl.
    destruct (trim text) eqn:Et; [now elim Ht|].
    replace (js_length (n :: l) =? 0) with false
      by (symmetry; apply Z.eqb_neq; unfold js_length; simpl; lia).
    apply Z.ltb_lt in Hlen. now rewrite Hlen.
Qed.

End GatewayPreconditions.

Lemma translate_preconditions_witness :
  translate (Some false) (fun _ => NetworkFailure) (js "hello") en ja
    = ([], Throw (ThrownAPIError OFFLINE_error))
  /\ translate (Some true) (fun _ => NetworkFailure) [9; 32; 12288]%N ja en
    = ([], Throw (ThrownAPIError empty_text_error))
  /\ translate None (fun _ => NetworkFailure) (repeat 97%N (Z.to_nat 5001)) en ja
    = ([], Throw (ThrownAPIError long_text_error)).
Proof.
  split; [|split].
  - apply (proj1 (translate_preconditions (Some false) (fun _ => NetworkFailure)
                    (js "hello") en ja)).
    reflexivity.
  - apply (proj1 (proj2 (translate_preconditions (Some true) (fun _ => NetworkFailure)
                           [9; 32; 12288]%N ja en))).
    + reflexivity.
    + reflexivity.
  - apply (proj2 (proj2 (translate_preconditions None (fun _ => NetworkFailure)
                           (repeat 97%N (Z.to_nat 5001)) en ja))).
    + reflexivity.
    + vm_compute. discriminate.
    + vm_compute. reflexivity.
Defined.

(** ** Effects *)

Lemma bind_ret_l {T A B} (a : A) (f : A -> Eff T B) : bind (ret a) f = f a.
Proof. unfold bind, ret. now destruct (f a). Qed.

Lemma completion_bind {T A B} (m : Eff T A) (f : A -> Eff T B) :
  completion (bind m f)
  = match completion m with
    | Return a => completion (f a)
    | Throw t => Throw t
    end.
Proof.
  destruct m as [tr [a|t]]; unfold bind, completion; simpl; [|reflexivity].
  now destruct (f a).
Qed.

Lemma completion_try_catch {T U A} (m : Eff T A) (h : T -> Eff U A) :
  completion (try_catch m h)
  = match completion m with
    | Return a => Return a
    | Throw t => completion (h t)
    end.
Proof.
  destruct m as [tr [a|t]]; unfold try_catch, completion; simpl; [reflexivity|].
  now destruct (h t).
Qed.

Lemma requests_app (tr1 tr2 : list Event) :
  requests (tr1 ++ tr2) = requests tr1 ++ requests tr2.
Proof. unfold requests. apply flat_map_app. Qed.

Lemma trace_bind {T A B} (m : Eff T A) (f : A -> Eff T B) :
  trace (bind m f)
  = match completion m with
    | Return a => trace m ++ trace (f a)
    | Throw _ => trace m
    end.
Proof.
  destruct m as [tr [a|t]]; unfold bind, completion, trace; simpl; [|reflexivity].
  now destruct (f a).
Qed.

Section Ensures.
Context {T A B : Type}.

Lemma ensures_ret (a : A) (Q : A -> Prop) (E : T -> Prop) :
  Q a -> ensures (ret a) Q E.
Proof. exact (fun H => H). Qed.

Lemma ensures_throw (t : T) (Q : A -> Prop) (E : T -> Prop) :
  E t -> ensures (throw t) Q E.
Proof. exact (fun H => H). Qed.

Lemma ensures_bind (m : Eff T A) (f : A -> Eff T B)
    (P : A -> Prop) (Q : B -> Prop) (E : T -> Prop) :
  ensures m P E -> (forall a, P a -> ensures (f a) Q E) ->
  ensures (bind m f) Q E.
Proof.
  unfold ensures. rewrite completion_bind.
  destruct (completion m); [intros Ha Hf; now apply Hf | trivial].
Qed.

Lemma ensures_weaken (m : Eff T A) (Q Q' : A -> Prop) (E E' : T -> Prop) :
  ensures m Q E -> (forall a, Q a -> Q' a) -> (forall t, E t -> E' t) ->
  ensures m Q' E'.
Proof. unfold ensures. destruct (completion m); auto. Qed.

End Ensures.

Lemma ensures_console_error {T} label arg (Q : unit -> Prop) (E : T -> Prop) :
  Q tt -> ensures (console_error label arg) Q E.
Proof. exact (fun H => H). Qed.

Lemma ensures_fetch (net : Network) (req : FetchRequest) :
  ensures (fetch net req)
          (fun r => net req = Responded r)
          (fun e => e = FetchFailed /\ net req = NetworkFailure).
Proof. unfold ensures, fetch, completion. simpl. now destruct (net req). Qed.

Lemma ensures_json (b : Body) :
  ensures (json b) (fun v => b = JSONBody v)
          (fun e => exists detail, e = JSONSyntaxError detail /\ b = NotJSON detail).
Proof. destruct b; unfold ensures; simpl; eauto. Qed.

Lemma ensures_get_property (v : JSValue) (k : JSString) :
  ensures (get_property v k) (fun _ => True)
          (fun e => exists b, e = NullishRead b k).
Proof. destruct v; unfold ensures; simpl; eauto. Qed.

Lemma ensures_get_first (v : JSValue) :
  ensures (get_first v) (fun _ => True)
          (fun e => exists b, e = NullishRead b (js "0")).
Proof. destruct v; unfold ensures; simpl; eauto. Qed.

(** ** Requests sent by the Proxy Endpoint *)

Lemma silent_bind {T A B} (m : Eff T A) (f : A -> Eff T B) :
  silent m -> (forall a, silent (f a)) -> silent (bind m f).
Proof.
  unfold silent. intros Hm Hf. rewrite trace_bind.
  destruct (completion m); [|exact Hm].
  now rewrite requests_app, Hm, Hf.
Qed.

Lemma silent_json b : silent (json b).
Proof. now destruct b. Qed.

Lemma silent_get_property v k : silent (get_property v k).
Proof. now destruct v. Qed.

Lemma silent_get_first v : silent (get_first v).
Proof. now destruct v. Qed.

Lemma silent_NextResponse_json b init_status :
  silent (Route.NextResponse_json b init_status).
Proof.
  unfold Route.NextResponse_json. cbv zeta.
  destruct (_ || _); [reflexivity|]. now destruct (existsb _ _).
Qed.

Lemma silent_json_error c m st : silent (Route.json_error c m st).
Proof. apply silent_NextResponse_json. Qed.

(** [NextResponse.json] with a status it accepts is the response with
    that body and that status. *)
Lemma json_error_carriable (c m : JSString) (st : Z) :
  Route.status_carriable st = true ->
  Route.json_error c m st = ret (Route.error_response c m st).
Proof.
  unfold Route.status_carriable, Route.json_error, Route.NextResponse_json.
  cbv zeta. intros H.
  apply andb_prop in H as [H Hnull]. apply andb_prop in H as [Hlo Hhi].
  apply negb_true_iff in Hnull. rewrite Hnull.
  replace ((st <? 200) || (599 <? st)) with false; [reflexivity|].
  symmetry. apply orb_false_iff. rewrite !Z.ltb_ge.
  apply Z.leb_le in Hlo, Hhi. lia.
Qed.

(** [NextResponse.json] with any other status throws the exception of the
    [Response] constructor, which is no transport failure. *)
Lemma json_error_not_carriable (c m : JSString) (st : Z) :
  Route.status_carriable st = false ->
  exists e, Route.json_error c m st = throw e
            /\ (e = StatusOutOfRange
                \/ (e = NullBodyStatus st /\ In st Route.null_body_statuses)).
Proof.
  unfold Route.status_carriable, Route.json_error, Route.NextResponse_json.
  cbv zeta. intros H.
  destruct ((st <? 200) || (599 <? st)) eqn:Hrange.
  - exists StatusOutOfRange. split; [reflexivity | now left].
  - destruct (existsb (Z.eqb st) Route.null_body_statuses) eqn:Hnull.
    + exists (NullBodyStatus st). split; [reflexivity|]. right. split; [reflexivity|].
      apply existsb_exists in Hnull as (x & Hx & Heq). apply Z.eqb_eq in Heq.
      now subst.
    + exfalso. apply orb_false_iff in Hrange as [Hlo Hhi].
      apply Z.ltb_ge in Hlo, Hhi.
      replace (200 <=? st) with true in H by (symmetry; now apply Z.leb_le).
      replace (st <=? 599) with true in H by (symmetry; now apply Z.leb_le).
      discriminate H.
Qed.

(** Whatever [NextResponse.json] returns on an error body is the error
    response with that body. *)
Lemma json_error_Return (c m : JSString) (st : Z) (resp : Route.NextResponse) :
  completion (Route.json_error c m st) = Return resp ->
  resp = Route.error_response c m st.
Proof.
  destruct (Route.status_carriable st) eqn:Hcarry.
  - rewrite (json_error_carriable _ _ _ Hcarry). now intros [= <-].
  - destruct (json_error_not_carriable c m st Hcarry) as (e & -> & _).
    discriminate.
Qed.

Lemma silent_POST_catch e : silent (Route.POST_catch e).
Proof.
  unfold Route.POST_catch. apply silent_bind; [reflexivity|]. intros _.
  now destruct (_ && _).
Qed.

(** [call_provider] sends exactly one request, whatever the answer. *)
Lemma call_provider_requests net apiKey text sourceLanguage targetLanguage :
  requests (trace (Route.call_provider net apiKey text sourceLanguage targetLanguage))
  = [Route.google_request apiKey text sourceLanguage targetLanguage].
Proof.
  unfold Route.call_provider. rewrite trace_bind.
  unfold fetch at 1 2 3. cbn [completion snd trace fst].
  destruct (net _) as [|r]; [reflexivity|].
  rewrite requests_app. cbn [requests flat_map app].
  change (flat_map _ ?tr) with (requests tr).
  match goal with |- _ :: requests (trace ?m) = _ =>
    assert (silent m) as Hs; [|now rewrite Hs] end.
  repeat match goal with
         | |- silent (if ?c then _ else _) => destruct c
         | |- silent (bind _ _) => apply silent_bind; [|intros ?]
         | |- silent (json _) => apply silent_json
         | |- silent (get_property _ _) => apply silent_get_property
         | |- silent (get_first _) => apply silent_get_first
         | |- silent (Route.json_error _ _ _) => apply silent_json_error
         | |- silent (Route.NextResponse_json _ _) => apply silent_NextResponse_json
         | |- silent _ => reflexivity
         end.
Qed.

Lemma try_catch_requests {T U A} (m : Eff T A) (h : T -> Eff U A) :
  (forall t, silent (h t)) ->
  requests (trace (try_catch m h)) = requests (trace m).
Proof.
  intros Hh. destruct m as [tr [a|t]]; unfold try_catch; [reflexivity|].
  specialize (Hh t). unfold silent, trace in *. destruct (h t) as [tr' c].
  cbn [fst] in *. now rewrite requests_app, Hh, app_nil_r.
Qed.

(** ** Proxy Endpoint *)

Section ProxyEndpoint.
Import Route RouteSpec.

Variables (request : NextRequest) (env : Env) (net : Network).

Lemma array_includes_validLanguages (v : JSValue) :
  array_includes validLanguages v = true <-> valid_language v.
Proof.
  unfold array_includes, validLanguages, valid_language. cbn [existsb].
  rewrite orb_false_r. split.
  - destruct v; cbn [same_value_zero]; try discriminate.
    intros [H|H]%orb_prop; apply js_eqb_eq in H; subst; auto.
  - intros [-> | ->]; reflexivity.
Qed.

Lemma handler_codes_in_taxonomy (c : JSString) :
  In c handler_codes -> In c taxonomy.
Proof. unfold handler_codes, taxonomy. simpl. tauto. Qed.

(** Every error response built by [error_response] from a code of the
    taxonomy and a non-empty message has the error shape. *)
Lemma error_response_shape (sent : list FetchRequest) (c m : JSString) (st : Z) :
  In c handler_codes -> m <> [] ->
  In st fixed_statuses \/ passthrough_status net sent st ->
  (200 <=? st) && (st <=? 299) = false ->
  response_shape net sent (error_response c m st).
Proof. intros Hc Hm Hst Hok. unfold response_shape, error_shape. simpl. auto. Qed.

(** [NextResponse.json] on an error body either returns the well-shaped
    error response or throws one of the exceptions of [raised_in_try]. *)
Lemma ensures_json_error (sent : list FetchRequest) (c m : JSString) (st : Z) :
  In c handler_codes -> m <> [] ->
  In st fixed_statuses \/ passthrough_status net sent st ->
  (200 <=? st) && (st <=? 299) = false ->
  ensures (json_error c m st) (response_shape net sent) raised_in_try.
Proof.
  intros Hc Hm Hst Hok. destruct (status_carriable st) eqn:Hcarry.
  - rewrite (json_error_carriable _ _ _ Hcarry).
    now apply ensures_ret, error_response_shape.
  - destruct (json_error_not_carriable c m st Hcarry) as (e & -> & [-> | [-> Hin]]).
    + exact I.
    + exact Hin.
Qed.

Lemma NextResponse_json_default (b : ResponseBody) :
  NextResponse_json b None = ret {| body := b; http_status := 200 |}.
Proof. reflexivity. Qed.

Local Ltac taxonomy_code := unfold handler_codes; simpl; tauto.
Local Ltac fixed_status := left; unfold fixed_statuses; simpl; tauto.
Local Ltac step_log :=
  eapply (ensures_bind _ _ (fun _ => True));
  [apply ensures_console_error; exact I | intros _ _].
Local Ltac step_read lemma :=
  eapply ensures_bind;
  [ eapply ensures_weaken;
    [apply lemma | intros ? H; exact H | intros ? (? & ->); simpl; tauto]
  | intros ? _ ].

(** What [call_provider] can do: return a well-shaped response, or throw
    one of the exceptions of [raised_in_try]. *)
Lemma call_provider_ensures apiKey (text sourceLanguage targetLanguage : JSValue) :
  ensures (call_provider net apiKey text sourceLanguage targetLanguage)
          (response_shape net [google_request apiKey text sourceLanguage targetLanguage])
          raised_in_try.
Proof.
  unfold call_provider.
  eapply ensures_bind.
  { eapply ensures_weaken; [apply ensures_fetch | intros a H; exact H |].
    intros t [-> _]. exact I. }
  cbv beta. intros r Hr.
  assert (passthrough_status net
            [google_request apiKey text sourceLanguage targetLanguage]
            (resp_status r)) as Hpass.
  { exists (google_request apiKey text sourceLanguage targetLanguage), r.
    split; [now left | split; [exact Hr | reflexivity]]. }
  destruct (resp_status r =? 429) eqn:E429.
  { apply ensures_json_error;
      [taxonomy_code | discriminate | fixed_status | reflexivity]. }
  destruct ((resp_status r =? 401) || (resp_status r =? 403)) eqn:Eauth.
  { step_log.
    apply ensures_json_error;
      [taxonomy_code | discriminate | right; exact Hpass |].
    apply orb_prop in Eauth as [E|E]; apply Z.eqb_eq in E; now rewrite E. }
  destruct (negb (resp_ok r)) eqn:Eok.
  { step_log.
    apply ensures_json_error;
      [taxonomy_code | discriminate | right; exact Hpass |].
    now apply negb_true_iff in Eok. }
  eapply ensures_bind.
  { eapply ensures_weaken; [apply ensures_json | intros a _; exact I |].
    intros t (d & -> & _). exact I. }
  intros data _.
  step_read ensures_get_property.
  step_read ensures_get_property.
  step_read ensures_get_first.
  step_read ensures_get_property.
  step_read ensures_get_property.
  rewrite NextResponse_json_default. apply ensures_ret. reflexivity.
Qed.

Lemma validate_and_call_ensures (text sourceLanguage targetLanguage : JSValue) :
  ensures (validate_and_call env net text sourceLanguage targetLanguage)
          (response_shape net
             (requests (trace (validate_and_call env net
                                 text sourceLanguage targetLanguage))))
          raised_in_try.
Proof.
  unfold validate_and_call.
  repeat match goal with
         | |- ensures (if ?c then _ else _) _ _ => destruct c
         end;
    try (apply ensures_json_error;
         [taxonomy_code | discriminate | fixed_status | reflexivity]).
  - step_log. apply ensures_json_error;
      [taxonomy_code | discriminate | fixed_status | reflexivity].
  - cbv zeta. rewrite call_provider_requests. apply call_provider_ensures.
Qed.

(** Parsing and destructuring send nothing: either they throw, or the
    [try] block is the validation of the three fields. *)
Lemma POST_try_cases :
  (exists e, POST_try request env net = throw e /\ raised_in_try e)
  \/ (exists text sourceLanguage targetLanguage,
        POST_try request env net
        = validate_and_call env net text sourceLanguage targetLanguage).
Proof.
  unfold POST_try. destruct (request_body request) as [detail|b].
  - left. exists (JSONSyntaxError detail). split; [reflexivity | exact I].
  - cbn [json]. rewrite bind_ret_l.
    destruct b;
      try (right; do 3 eexists; cbn [destructure_body get_property];
           rewrite !bind_ret_l; reflexivity);
      left; eexists; (split; [reflexivity | reflexivity]).
Qed.

(** What the [try] block can do: return a well-shaped response, or throw one
    of the exceptions of [raised_in_try]. *)
Lemma POST_try_ensures :
  ensures (POST_try request env net)
          (response_shape net (requests (trace (POST_try request env net))))
          raised_in_try.
Proof.
  destruct POST_try_cases as [(e & -> & He) | (text & src & tgt & ->)].
  - exact He.
  - apply validate_and_call_ensures.
Qed.

(** The [catch] clause tells the transport failure from every other
    exception the [try] block raises. *)
Lemma POST_catch_classifies (e : Exn) :
  raised_in_try e ->
  POST_catch e
  = ([EConsoleError (js "Translation API error:") (LogExn e)],
     Return (if is_transport_failure e
             then NETWORK_ERROR_response else API_ERROR_response)).
Proof.
  destruct e as [|detail|n prop|n prop| | |st]; simpl.
  - intros _. reflexivity.
  - intros _. reflexivity.
  - intros H. destruct n;
      repeat (destruct H as [<-|H]; [vm_compute; reflexivity|]); elim H.
  - intros ->. destruct n; vm_compute; reflexivity.
  - intros [].
  - intros _. reflexivity.
  - intros H.
    repeat (destruct H as [<-|H]; [vm_compute; reflexivity|]); elim H.
Qed.

(** The handler as a whole: it returns a well-shaped response and throws
    nothing. *)
Lemma POST_ensures :
  ensures (POST request env net)
          (response_shape net (requests (trace (POST request env net))))
          (fun _ => False).
Proof.
  pose proof POST_try_ensures as H. unfold ensures, POST in *.
  rewrite try_catch_requests by apply silent_POST_catch.
  rewrite completion_try_catch.
  destruct (completion (POST_try request env net)) as [resp|e]; [exact H|].
  rewrite (POST_catch_classifies e H). unfold completion. simpl.
  destruct (is_transport_failure e);
    apply error_response_shape;
    try taxonomy_code; try discriminate; try reflexivity; fixed_status.
Qed.

Lemma POST_try_carries (text sourceLanguage targetLanguage : JSValue) :
  carries request text sourceLanguage targetLanguage ->
  POST_try request env net
  = validate_and_call env net text sourceLanguage targetLanguage.
Proof.
  intros (b & Hb & Hd). unfold POST_try. rewrite Hb. cbn [json].
  rewrite bind_ret_l, Hd, bind_ret_l. reflexivity.
Qed.

Lemma POST_try_accepted (text : JSString) (sourceLanguage targetLanguage : JSValue)
    (key : JSString) :
  accepted request env text sourceLanguage targetLanguage key ->
  POST_try request env net
  = call_provider net (Some key) (VString text) sourceLanguage targetLanguage.
Proof.
  intros (Hc & Htrim & Hlen & Hs & Ht & Hkey & Hne).
  rewrite (POST_try_carries _ _ _ Hc). unfold validate_and_call.
  assert (text <> []) as Htext by (intros ->; now apply Htrim).
  destruct text as [|c r] eqn:E; [congruence|]. rewrite <- E in *.
  replace (truthy (VString text)) with true by (now rewrite E).
  cbn [is_string negb orb string_of].
  replace (js_length (trim text) =? 0) with false.
  2:{ symmetry. apply Z.eqb_neq. unfold js_length.
      destruct (trim text); [congruence | simpl; lia]. }
  replace (5000 <? js_length text) with false
    by (symmetry; apply Z.ltb_ge; exact Hlen).
  apply array_includes_validLanguages in Hs, Ht. rewrite Hs, Ht.
  cbn [negb orb]. rewrite Hkey.
  destruct key; [congruence|]. reflexivity.
Qed.

(** The statuses [NextResponse.json] accepts with a body. *)
Lemma status_carriable_iff (st : Z) :
  status_carriable st = true
  <-> 200 <= st <= 599 /\ st <> 204 /\ st <> 205 /\ st <> 304.
Proof.
  unfold status_carriable, null_body_statuses. cbn [existsb].
  rewrite !andb_true_iff, negb_true_iff, !orb_false_iff, !Z.leb_le, !Z.eqb_neq.
  lia.
Qed.

(** C4. Whatever exception [e] the [try] block of the handler raises, the
    handler logs it and answers: with code NETWORK_ERROR, the connection
    message and status 503 when [e] is the transport failure of [fetch];
    with code API_ERROR, the unavailability message and status 500 for
    every other exception, those of [NextResponse.json] included.  And a
    provider that cannot be reached after a successful validation does
    raise the transport failure, so that the answer is NETWORK_ERROR with
    status 503. *)
Theorem POST_exception_mapping :
  (forall tr e,
      POST_try request env net = (tr, Throw e) ->
      (e = FetchFailed ->
       POST request env net
       = (tr ++ [EConsoleError (js "Translation API error:") (LogExn e)],
          Return {| body :=
                      Failure {| code := js "NETWORK_ERROR";
                                 message :=
                                   js "Unable to connect. Please check your internet connection.";
                                 status := 503 |};
                    http_status := 503 |}))
      /\ (e <> FetchFailed ->
          POST request env net
          = (tr ++ [EConsoleError (js "Translation API error:") (LogExn e)],
             Return {| body :=
                         Failure {| code := js "API_ERROR";
                                    message :=
                                      js "Translation service is temporarily unavailable.";
                                    status := 500 |};
                       http_status := 500 |})))
  /\ (forall text sourceLanguage targetLanguage key,
        accepted request env text sourceLanguage targetLanguage key ->
        net (google_request (Some key) (VString text) sourceLanguage targetLanguage)
          = NetworkFailure ->
        POST request env net
        = ([EFetch (google_request (Some key) (VString text)
                                   sourceLanguage targetLanguage);
            EConsoleError (js "Translation API error:") (LogExn FetchFailed)],
           Return {| body :=
                       Failure {| code := js "NETWORK_ERROR";
                                  message :=
                                    js "Unable to connect. Please check your internet connection.";
                                  status := 503 |};
                     http_status := 503 |})).
Proof.
  split.
  - intros tr e Htry. pose proof POST_try_ensures as H.
    unfold ensures in H. rewrite Htry in H. cbn [completion snd] in H.
    unfold POST. rewrite Htry. unfold try_catch.
    rewrite (POST_catch_classifies e H). split.
    + intros ->. reflexivity.
    + intros Hne. destruct e; try reflexivity. now elim Hne.
  - intros text sourceLanguage targetLanguage key Hacc Hnet.
    unfold POST. rewrite (POST_try_accepted _ _ _ _ Hacc).
    unfold call_provider, fetch. rewrite Hnet. reflexivity.
Qed.

(** C5, amended. After a successful validation, the answer of the provider
    is mapped as follows: 429 gives RATE_LIMIT with status 429; 401 and 403
    give AUTH_ERROR with the same status and the configuration-error
    message; any other status outside 200-299 gives API_ERROR with the
    unavailability message, and with the same status when that status is
    between 300 and 599 and is not 304, with status 500 otherwise (below
    200, above 599, or 304: [NextResponse.json] refuses such a status and
    the [catch] clause answers); and on success the handler returns the
    [translatedText] and the [detectedSourceLanguage] of the first
    translation as they are, with status 200. *)
Theorem POST_provider_response_mapping
    (text : JSString) (sourceLanguage targetLanguage : JSValue) (key : JSString)
    (r : HttpResponse) :
  accepted request env text sourceLanguage targetLanguage key ->
  net (google_request (Some key) (VString text) sourceLanguage targetLanguage)
    = Responded r ->
  (resp_status r = 429 ->
     completion (POST request env net)
     = Return {| body :=
                   Failure {| code := js "RATE_LIMIT";
                              message :=
                                js "Too many requests. Please wait a moment and try again.";
                              status := 429 |};
                 http_status := 429 |})
  /\ (resp_status r = 401 \/ resp_status r = 403 ->
     completion (POST request env net)
     = Return {| body :=
                   Failure {| code := js "AUTH_ERROR";
                              message := js "Translation service configuration error.";
                              status := resp_status r |};
                 http_status := resp_status r |})
  /\ (resp_status r <> 429 -> resp_status r <> 401 -> resp_status r <> 403 ->
      300 <= resp_status r <= 599 -> resp_status r <> 304 ->
     completion (POST request env net)
     = Return {| body :=
                   Failure {| code := js "API_ERROR";
                              message :=
                                js "Translation service is temporarily unavailable.";
                              status := resp_status r |};
                 http_status := resp_status r |})
  /\ (resp_status r < 200 \/ 599 < resp_status r \/ resp_status r = 304 ->
     completion (POST request env net)
     = Return {| body :=
                   Failure {| code := js "API_ERROR";
                              message :=
                                js "Translation service is temporarily unavailable.";
                              status := 500 |};
                 http_status := 500 |})
  /\ (resp_ok r = true ->
      forall data inner first rest translated detected,
        resp_body r = JSONBody data ->
        get_property data (js "data") = ret inner ->
        get_property inner (js "translations") = ret (VArray (first :: rest)) ->
        get_property first (js "translatedText") = ret translated ->
        get_property first (js "detectedSourceLanguage") = ret detected ->
        completion (POST request env net)
        = Return {| body := Success translated detected; http_status := 200 |}).
Proof.
  intros Hacc Hnet. unfold POST.
  rewrite completion_try_catch, (POST_try_accepted _ _ _ _ Hacc).
  unfold call_provider. rewrite completion_bind.
  unfold fetch. rewrite Hnet. cbn [completion snd].
  repeat split.
  - intros ->. reflexivity.
  - intros [Hst | Hst]; rewrite Hst; reflexivity.
  - intros H429 H401 H403 Hrange H304.
    apply Z.eqb_neq in H429, H401, H403. rewrite H429, H401, H403.
    replace (resp_ok r) with false.
    2:{ symmetry. unfold resp_ok. apply andb_false_iff. rewrite !Z.leb_gt. lia. }
    cbn [orb negb].
    rewrite json_error_carriable by (apply status_carriable_iff; lia).
    reflexivity.
  - intros Hst.
    replace (resp_status r =? 429) with false by (symmetry; apply Z.eqb_neq; lia).
    replace (resp_status r =? 401) with false by (symmetry; apply Z.eqb_neq; lia).
    replace (resp_status r =? 403) with false by (symmetry; apply Z.eqb_neq; lia).
    replace (resp_ok r) with false.
    2:{ symmetry. unfold resp_ok. apply andb_false_iff. rewrite !Z.leb_gt. lia. }
    cbn [orb negb].
    destruct (json_error_not_carriable ERROR_CODES.API_ERROR
                (js "Translation service is temporarily unavailable.")
                (resp_status r)) as (e & -> & He).
    { destruct (status_carriable (resp_status r)) eqn:Hc; [|reflexivity].
      apply status_carriable_iff in Hc. lia. }
    rewrite completion_bind. cbn [console_error completion snd throw].
    rewrite POST_catch_classifies.
    + destruct He as [-> | [-> _]]; reflexivity.
    + destruct He as [-> | [-> Hin]]; [exact I | exact Hin].
  - intros Hok data inner first rest translated detected Hbody Hd Htr Htt Hdsl.
    assert (200 <= resp_status r <= 299) as Hrange.
    { unfold resp_ok in Hok. apply andb_prop in Hok as [H1 H2].
      apply Z.leb_le in H1, H2. lia. }
    replace (resp_status r =? 429) with false by (symmetry; apply Z.eqb_neq; lia).
    replace (resp_status r =? 401) with false by (symmetry; apply Z.eqb_neq; lia).
    replace (resp_status r =? 403) with false by (symmetry; apply Z.eqb_neq; lia).
    rewrite Hok, Hbody. cbn [orb negb json].
    rewrite bind_ret_l, Hd, bind_ret_l, Htr, bind_ret_l.
    cbn [get_first]. rewrite bind_ret_l, Htt, bind_ret_l, Hdsl, bind_ret_l.
    reflexivity.
Qed.

(** C9. Every error response of the handler, on every path, carries a
    code of the taxonomy, a non-empty message and a [status] field equal to
    the HTTP status of the response, and that status is one of 400, 401,
    403, 429, 500, 503 or the status the provider answered with. *)
Theorem POST_error_response_shape (e : ErrorBody) (st : Z) :
  completion (POST request env net)
    = Return {| body := Failure e; http_status := st |} ->
  In (code e) taxonomy
  /\ message e <> []
  /\ status e = st
  /\ (In st fixed_statuses
      \/ exists req r,
           In req (requests (trace (POST request env net)))
           /\ net req = Responded r /\ st = resp_status r).
Proof.
  intros H. pose proof POST_ensures as Hshape.
  unfold ensures in Hshape. rewrite H in Hshape.
  destruct Hshape as (Hcode & Hmsg & Hst & Hfrom & _).
  auto using handler_codes_in_taxonomy.
Qed.

(** C10. The handler always answers: its completion is a response, never
    a thrown exception, and the response is well shaped.  A request body
    that is not JSON, and a provider success whose [translations] array is
    empty, are both answered with API_ERROR and status 500. *)
Theorem POST_total :
  (exists resp, completion (POST request env net) = Return resp
                /\ response_shape net (requests (trace (POST request env net))) resp)
  /\ (forall detail,
        request_body request = NotJSON detail ->
        completion (POST request env net) = Return API_ERROR_response)
  /\ (forall text sourceLanguage targetLanguage key r data inner,
        accepted request env text sourceLanguage targetLanguage key ->
        net (google_request (Some key) (VString text) sourceLanguage targetLanguage)
          = Responded r ->
        resp_ok r = true ->
        resp_body r = JSONBody data ->
        get_property data (js "data") = ret inner ->
        get_property inner (js "translations") = ret (VArray []) ->
        completion (POST request env net) = Return API_ERROR_response).
Proof.
  repeat split.
  - pose proof POST_ensures as H. unfold ensures in H.
    destruct (completion (POST request env net)) as [resp|e]; [eauto | elim H].
  - intros detail Hbody. unfold POST, POST_try. rewrite Hbody. reflexivity.
  - intros text sourceLanguage targetLanguage key r data inner
           Hacc Hnet Hok Hbody Hd Htr.
    assert (200 <= resp_status r <= 299) as Hrange.
    { unfold resp_ok in Hok. apply andb_prop in Hok as [H1 H2].
      apply Z.leb_le in H1, H2. lia. }
    unfold POST. rewrite completion_try_catch, (POST_try_accepted _ _ _ _ Hacc).
    unfold call_provider. rewrite completion_bind.
    unfold fetch. rewrite Hnet. cbn [completion snd].
    replace (resp_status r =? 429) with false by (symmetry; apply Z.eqb_neq; lia).
    replace (resp_status r =? 401) with false by (symmetry; apply Z.eqb_neq; lia).
    replace (resp_status r =? 403) with false by (symmetry; apply Z.eqb_neq; lia).
    rewrite Hok, Hbody. cbn [orb negb json].
    rewrite bind_ret_l, Hd, bind_ret_l, Htr, bind_ret_l.
    reflexivity.
Qed.

End ProxyEndpoint.

(** ** Translation Gateway: failures after the request is sent *)

Section GatewayFailures.

Variables (navigator : option bool) (net : Network).
Variables (text : JSString) (sourceLanguage targetLanguage : Language).

Lemma translate_sends :
  passes_local_checks navigator text ->
  translate navigator net text sourceLanguage targetLanguage
  = try_catch (translate_try net text sourceLanguage targetLanguage) translate_catch.
Proof.
  intros (Hon & Htrim & Hlen). unfold translate. rewrite Hon. cbn [negb].
  assert (text <> []) as Htext by (intros ->; now apply Htrim).
  destruct text as [|c r] eqn:E; [congruence|]. rewrite <- E in *.
  replace (truthy (VString text)) with true by (now rewrite E).
  replace (js_length (trim text) =? 0) with false.
  2:{ symmetry. apply Z.eqb_neq. unfold js_length.
      destruct (trim text); [congruence | simpl; lia]. }
  replace (5000 <? js_length text) with false
    by (symmetry; apply Z.ltb_ge; exact Hlen).
  reflexivity.
Qed.

(** The [catch] clause re-throws a structured error, reports every
    [TypeError] as NETWORK_ERROR with status 0, and everything else as
    API_ERROR with status 500. *)
Lemma translate_catch_classifies (error : Thrown) :
  translate_catch error
  = throw (match error with
           | ThrownAPIError e => error
           | ThrownExn x =>
               ThrownAPIError (if instanceof_TypeError x
                               then NETWORK_ERROR_error else API_ERROR_error)
           end).
Proof.
  destruct error as [e|x]; [reflexivity|].
  unfold translate_catch. cbn [has_api_error_shape thrown_instanceof_TypeError].
  destruct (instanceof_TypeError x); reflexivity.
Qed.

(** A request that cannot reach the endpoint fails with NETWORK_ERROR and
    status 0. *)
Lemma translate_transport_failure :
  passes_local_checks navigator text ->
  net (translate_request text sourceLanguage targetLanguage) = NetworkFailure ->
  translate navigator net text sourceLanguage targetLanguage
  = ([EFetch (translate_request text sourceLanguage targetLanguage)],
     Throw (ThrownAPIError NETWORK_ERROR_error)).
Proof.
  intros Hpre Hnet. rewrite (translate_sends Hpre).
  unfold translate_try, fetch. rewrite Hnet. reflexivity.
Qed.


(** An error response whose body is JSON other than [null]: the error takes
    the body's [code] and [message] where they are truthy, and the HTTP
    status. *)
Lemma translate_json_error_body (r : HttpResponse) (data : JSValue) :
  passes_local_checks navigator text ->
  net (translate_request text sourceLanguage targetLanguage) = Responded r ->
  resp_ok r = false ->
  resp_body r = JSONBody data -> data <> VNull -> data <> VUndefined ->
  exists c m,
    get_property data (js "code") = ret c
    /\ get_property data (js "message") = ret m
    /\ (truthy m = true ->
        translate navigator net text sourceLanguage targetLanguage
        = ([EFetch (translate_request text sourceLanguage targetLanguage)],
           Throw (ThrownAPIError
                    {| code := if truthy c then c
                               else VString ERROR_CODES.API_ERROR;
                       message := m;
                       status := resp_status r |})))
    /\ (truthy m = false ->
        forall key, to_js_string c = Some key ->
        translate navigator net text sourceLanguage targetLanguage
        = ([EFetch (translate_request text sourceLanguage targetLanguage)],
           Throw (ThrownAPIError
                    {| code := if truthy c then c
                               else VString ERROR_CODES.API_ERROR;
                       message := getErrorMessage key;
                       status := resp_status r |}))).
Proof.
  intros Hpre Hnet Hok Hbody Hnull Hundef.
  assert (exists c m,
             get_property data (js "code") = ret c
             /\ get_property data (js "message") = ret m) as (c & m & Hc & Hm).
  { destruct data; try congruence; do 2 eexists; split; reflexivity. }
  exists c, m. split; [exact Hc|]. split; [exact Hm|].
  rewrite (translate_sends Hpre).
  unfold translate_try, fetch. rewrite Hnet. cbn [raise_as bind].
  rewrite Hbody. cbn [json ret raise_as bind]. rewrite Hok. cbn [negb].
  rewrite Hc, Hm. split.
  - intros Hm1. unfold js_or, js_or_else. cbn [raise_as ret bind].
    rewrite Hm1. reflexivity.
  - intros Hm0 key Hkey. unfold js_or, js_or_else, to_property_key.
    cbn [raise_as ret bind]. rewrite Hm0, Hkey. reflexivity.
Qed.



(** Strings, numbers, booleans, [null] and [undefined] always convert to a
    property key. *)
Lemma to_js_string_primitive (v : JSValue) :
  match v with VArray _ | VObject _ => True | _ => to_js_string v <> None end.
Proof. destruct v as [| |[]| | | | |]; simpl; try exact I; discriminate. Qed.

(** An error body that is an object without [code] and [message] fails
    with API_ERROR, the API_ERROR message and the HTTP status. *)
Lemma translate_error_without_code (r : HttpResponse) (props : list (JSString * JSValue)) :
  passes_local_checks navigator text ->
  net (translate_request text sourceLanguage targetLanguage) = Responded r ->
  resp_ok r = false ->
  resp_body r = JSONBody (VObject props) ->
  own_property props (js "code") = None ->
  own_property props (js "message") = None ->
  translate navigator net text sourceLanguage targetLanguage
  = ([EFetch (translate_request text sourceLanguage targetLanguage)],
     Throw (ThrownAPIError
              {| code := VString ERROR_CODES.API_ERROR;
                 message := API_ERROR_message;
                 status := resp_status r |})).
Proof.
  intros Hpre Hnet Hok Hbody Hc Hm.
  destruct (translate_json_error_body r (VObject props) Hpre Hnet Hok Hbody)
    as (c & m & Hrc & Hrm & _ & Hfalsy); try discriminate.
  assert (c = VUndefined) as ->.
  { cbn [get_property] in Hrc. unfold plain_object_get in Hrc.
    rewrite Hc in Hrc. now injection Hrc as <-. }
  assert (m = VUndefined) as ->.
  { cbn [get_property] in Hrm. unfold plain_object_get in Hrm.
    rewrite Hm in Hrm. now injection Hrm as <-. }
  exact (Hfalsy eq_refl _ eq_refl).
Qed.

(** The error responses the route handler builds pass through [translate]
    unchanged: same code, same message, same status. *)
Lemma translate_passes_route_errors (e : Route.ErrorBody) (st : Z) :
  passes_local_checks navigator text ->
  net (translate_request text sourceLanguage targetLanguage)
    = Responded (served {| Route.body := Route.Failure e; Route.http_status := st |}) ->
  In (Route.code e) RouteSpec.handler_codes -> Route.message e <> [] ->
  (200 <=? st) && (st <=? 299) = false ->
  translate navigator net text sourceLanguage targetLanguage
  = ([EFetch (translate_request text sourceLanguage targetLanguage)],
     Throw (ThrownAPIError
              {| code := VString (Route.code e);
                 message := VString (Route.message e);
                 status := st |})).
Proof.
  intros Hpre Hnet Hcode Hmsg Hok.
  destruct (translate_json_error_body _ _ Hpre Hnet Hok eq_refl)
    as (c & m & Hrc & Hrm & Htruthy & _); try discriminate.
  injection Hrc as <-. injection Hrm as <-.
  rewrite Htruthy.
  - f_equal. f_equal. f_equal. f_equal.
    cbn [truthy].
    destruct (Route.code e) eqn:E; [|reflexivity].
    exfalso. unfold RouteSpec.handler_codes in Hcode. simpl in Hcode.
    intuition discriminate.
  - cbn [truthy]. destruct (Route.message e); [congruence | reflexivity].
Qed.

End GatewayFailures.

(** Every exception raised in the [try] block of [translate] is mapped by
    its class alone. *)
Lemma translate_exception_mapping navigator net text sourceLanguage targetLanguage
    (tr : list Event) (x : Exn) :
  passes_local_checks navigator text ->
  translate_try net text sourceLanguage targetLanguage = (tr, Throw (ThrownExn x)) ->
  translate navigator net text sourceLanguage targetLanguage
  = (tr, Throw (ThrownAPIError (if instanceof_TypeError x
                                then NETWORK_ERROR_error else API_ERROR_error))).
Proof.
  intros Hpre Htry. rewrite (translate_sends _ _ _ _ _ Hpre), Htry.
  unfold try_catch. rewrite translate_catch_classifies.
  unfold throw. now rewrite app_nil_r.
Qed.

(** C7. An error response whose JSON body is [null] makes the read of
    [data.code] raise a [TypeError]; this is no transport failure, the
    endpoint has answered, yet [translate] fails with NETWORK_ERROR and
    status 0 instead of API_ERROR and status 500. *)
Theorem translate_null_body_reported_as_network_error :
  let net : Network :=
    fun _ => Responded {| resp_status := 500; resp_body := JSONBody VNull |} in
  translate_try net (js "hello") en ja
    = ([EFetch (translate_request (js "hello") en ja)],
       Throw (ThrownExn (NullishRead NNull (js "code"))))
  /\ is_transport_failure (NullishRead NNull (js "code")) = false
  /\ translate (Some true) net (js "hello") en ja
    = ([EFetch (translate_request (js "hello") en ja)],
       Throw (ThrownAPIError NETWORK_ERROR_error))
  /\ NETWORK_ERROR_error <> API_ERROR_error.
Proof.
  cbv zeta. split; [reflexivity|]. split; [reflexivity|]. split.
  - vm_compute. reflexivity.
  - intros H. apply (f_equal status) in H. discriminate.
Qed.



Section ProxyValidation.
Import Route RouteSpec.

Variables (request : NextRequest) (env : Env) (net : Network).
Variables (text sourceLanguage targetLanguage : JSValue).

(** C6, as amended. For a request body whose fields can be read, the
    handler applies five checks in this order and answers with the first
    that fails, sending nothing to the provider: (1) [text] falsy (missing,
    null, the empty string) or not a string; (2) [text] blank after trim;
    (3) [text] longer than 5000 code units; (4) a language outside en and
    ja; (5) the credential missing or empty, answered with AUTH_ERROR, 500
    and a fixed message.  When all five pass, exactly one request goes to
    the provider. *)
Theorem POST_validation_order :
  carries request text sourceLanguage targetLanguage ->
  (truthy text = false \/ is_string text = false ->
     POST request env net = rejected (js "Please enter valid text to translate."))
  /\ (forall s, text = VString s -> s <> [] ->
      (trim s = [] ->
         POST request env net = rejected (js "Please enter text to translate."))
      /\ (trim s <> [] -> 5000 < js_length s ->
         POST request env net
         = rejected (js "Text exceeds maximum length of 5000 characters."))
      /\ (trim s <> [] -> js_length s <= 5000 ->
          ~ (valid_language sourceLanguage /\ valid_language targetLanguage) ->
         POST request env net = rejected (js "Invalid language selection."))
      /\ (trim s <> [] -> js_length s <= 5000 ->
          valid_language sourceLanguage -> valid_language targetLanguage ->
          GOOGLE_TRANSLATE_API_KEY env = None
          \/ GOOGLE_TRANSLATE_API_KEY env = Some [] ->
         POST request env net
         = ([EConsoleError (js "GOOGLE_TRANSLATE_API_KEY is not configured") LogNothing],
            Return (error_response ERROR_CODES.AUTH_ERROR
                      (js "Translation service configuration error.") 500)))
      /\ (forall key,
          trim s <> [] -> js_length s <= 5000 ->
          valid_language sourceLanguage -> valid_language targetLanguage ->
          GOOGLE_TRANSLATE_API_KEY env = Some key -> key <> [] ->
          requests (trace (POST request env net))
          = [google_request (Some key) text sourceLanguage targetLanguage])).
Proof.
  intros Hc. unfold POST. rewrite (POST_try_carries _ _ _ _ _ _ Hc).
  split.
  - intros Hbad. unfold validate_and_call.
    replace (negb (truthy text) || negb (is_string text)) with true; [reflexivity|].
    symmetry. apply orb_true_iff. destruct Hbad as [-> | ->]; auto.
  - intros s -> Hs. unfold validate_and_call.
    destruct s as [|c0 s0] eqn:E; [congruence|]. rewrite <- E in *.
    replace (truthy (VString s)) with true by (now rewrite E).
    cbn [is_string negb orb string_of].
    assert (Hblank : trim s <> [] -> (js_length (trim s) =? 0) = false).
    { intros Ht. apply Z.eqb_neq. unfold js_length.
      destruct (trim s); [congruence | simpl; lia]. }
    assert (Hshort : js_length s <= 5000 -> (5000 <? js_length s) = false)
      by (intros; now apply Z.ltb_ge).
    repeat split.
    + intros ->. reflexivity.
    + intros Ht Hlong. rewrite (Hblank Ht).
      apply Z.ltb_lt in Hlong. now rewrite Hlong.
    + intros Ht Hlen Hlang. rewrite (Hblank Ht), (Hshort Hlen).
      rewrite <- !array_includes_validLanguages in Hlang.
      destruct (array_includes validLanguages sourceLanguage),
               (array_includes validLanguages targetLanguage);
        try reflexivity. elim Hlang. auto.
    + intros Ht Hlen Hsrc Htgt Hkey. rewrite (Hblank Ht), (Hshort Hlen).
      apply array_includes_validLanguages in Hsrc, Htgt. rewrite Hsrc, Htgt.
      destruct Hkey as [-> | ->]; reflexivity.
    + intros key Ht Hlen Hsrc Htgt Hkey Hne.
      rewrite (Hblank Ht), (Hshort Hlen).
      apply array_includes_validLanguages in Hsrc, Htgt. rewrite Hsrc, Htgt, Hkey.
      destruct key; [congruence|]. cbn [negb orb env_value truthy].
      rewrite try_catch_requests by apply silent_POST_catch.
      apply call_provider_requests.
Qed.

End ProxyValidation.

(** ** The Proxy Endpoint on sample requests *)

Section ProxySamples.
Import Route RouteSpec.

Lemma sample_accepted :
  accepted (sample_request (js "hello")) sample_env
           (js "hello") (VString (js "en")) (VString (js "ja")) (js "k3y").
Proof.
  unfold accepted, valid_language.
  split; [exists (sample_body (js "hello")); split; reflexivity|].
  split; [vm_compute; discriminate|].
  split; [vm_compute; discriminate|].
  split; [left; reflexivity|].
  split; [right; reflexivity|].
  split; [reflexivity | discriminate].
Defined.

(** C6, counterexample. Text that is present, is a string and is empty
    after trim is not always answered with "Please enter text to
    translate.": the empty string is caught by the first check and answered
    with "Please enter valid text to translate.". *)
Lemma POST_empty_string_rejected_by_first_check :
  ~ (forall request env net (s : JSString) sourceLanguage targetLanguage,
        carries request (VString s) sourceLanguage targetLanguage ->
        trim s = [] ->
        POST request env net = rejected (js "Please enter text to translate.")).
Proof.
  intros H.
  specialize (H (sample_request []) sample_env unreachable []
                (VString (js "en")) (VString (js "ja"))).
  assert (POST (sample_request []) sample_env unreachable
          = rejected (js "Please enter valid text to translate.")) as Hcode
    by reflexivity.
  rewrite Hcode in H.
  assert (rejected (js "Please enter valid text to translate.")
          = rejected (js "Please enter text to translate.")) as Heq.
  { apply H; [|reflexivity]. exists (sample_body []). split; reflexivity. }
  vm_compute in Heq. discriminate Heq.
Qed.

Lemma POST_validation_order_witness :
  POST (sample_request [32; 9; 12288]%N) sample_env unreachable
  = rejected (js "Please enter text to translate.").
Proof.
  refine (proj1 (proj2 (POST_validation_order
                          (sample_request [32; 9; 12288]%N) sample_env unreachable
                          (VString [32; 9; 12288]%N) (VString (js "en")) (VString (js "ja"))
                          _)
                       [32; 9; 12288]%N eq_refl _) _).
  - exists (sample_body [32; 9; 12288]%N). split; reflexivity.
  - discriminate.
  - reflexivity.
Defined.

Lemma POST_exception_mapping_witness :
  POST (sample_request (js "hello")) sample_env unreachable
  = ([EFetch (google_request (Some (js "k3y")) (VString (js "hello"))
                             (VString (js "en")) (VString (js "ja")))]
       ++ [EConsoleError (js "Translation API error:") (LogExn FetchFailed)],
     Return {| body :=
                 Failure {| code := js "NETWORK_ERROR";
                            message :=
                              js "Unable to connect. Please check your internet connection.";
                            status := 503 |};
               http_status := 503 |})
  /\ POST {| request_body := NotJSON (js "Unexpected token h in JSON") |}
          sample_env unreachable
  = ([] ++ [EConsoleError (js "Translation API error:")
                          (LogExn (JSONSyntaxError (js "Unexpected token h in JSON")))],
     Return {| body :=
                 Failure {| code := js "API_ERROR";
                            message :=
                              js "Translation service is temporarily unavailable.";
                            status := 500 |};
               http_status := 500 |}).
Proof.
  split.
  - apply (proj1 (proj1 (POST_exception_mapping (sample_request (js "hello"))
                           sample_env unreachable) _ FetchFailed eq_refl)).
    reflexivity.
  - apply (proj2 (proj1 (POST_exception_mapping
                           {| request_body := NotJSON (js "Unexpected token h in JSON") |}
                           sample_env unreachable)
                        _ (JSONSyntaxError (js "Unexpected token h in JSON")) eq_refl)).
    discriminate.
Defined.

(** C5, counterexample. A status of the provider outside 200-299 other
    than 429, 401 and 403 is not always passed on: to the status 304 the
    handler answers API_ERROR with status 500, after two log lines, because
    [NextResponse.json] refuses to build a response with a body and the
    status 304, and the [catch] clause answers in its place. *)
Lemma POST_provider_status_not_always_passed_on :
  ~ (forall request env net text sourceLanguage targetLanguage key r,
        accepted request env text sourceLanguage targetLanguage key ->
        net (google_request (Some key) (VString text) sourceLanguage targetLanguage)
          = Responded r ->
        resp_status r <> 429 -> resp_status r <> 401 -> resp_status r <> 403 ->
        resp_ok r = false ->
        exists e, completion (POST request env net)
                  = Return {| body := Failure e; http_status := resp_status r |}
                  /\ code e = js "API_ERROR" /\ status e = resp_status r)
  /\ POST (sample_request (js "hello")) sample_env (answering 304 VNull)
     = ([EFetch (google_request (Some (js "k3y")) (VString (js "hello"))
                                (VString (js "en")) (VString (js "ja")));
         EConsoleError (js "Google API error:") (LogStatus 304);
         EConsoleError (js "Translation API error:") (LogExn (NullBodyStatus 304))],
        Return {| body :=
                    Failure {| code := js "API_ERROR";
                               message :=
                                 js "Translation service is temporarily unavailable.";
                               status := 500 |};
                  http_status := 500 |}).
Proof.
  split; [|reflexivity].
  intros H.
  destruct (H (sample_request (js "hello")) sample_env (answering 304 VNull)
              (js "hello") (VString (js "en")) (VString (js "ja")) (js "k3y")
              {| resp_status := 304; resp_body := JSONBody VNull |}
              sample_accepted eq_refl)
    as (e & Hresp & _); try discriminate; try reflexivity.
Qed.

Lemma POST_provider_response_mapping_witness :
  completion (POST (sample_request (js "hello")) sample_env (answering 429 VNull))
  = Return {| body :=
                Failure {| code := js "RATE_LIMIT";
                           message :=
                             js "Too many requests. Please wait a moment and try again.";
                           status := 429 |};
              http_status := 429 |}
  /\ completion (POST (sample_request (js "hello")) sample_env (answering 404 VNull))
  = Return {| body :=
                Failure {| code := js "API_ERROR";
                           message :=
                             js "Translation service is temporarily unavailable.";
                           status := 404 |};
              http_status := 404 |}
  /\ completion (POST (sample_request (js "hello")) sample_env (answering 304 VNull))
  = Return {| body :=
                Failure {| code := js "API_ERROR";
                           message :=
                             js "Translation service is temporarily unavailable.";
                           status := 500 |};
              http_status := 500 |}
  /\ completion (POST (sample_request (js "hello")) sample_env
                      (answering 200 (provider_answer [sample_translation])))
  = Return {| body := Success (VString [12371; 12435; 12395; 12385; 12399]%N)
                              (VString (js "en"));
              http_status := 200 |}.
Proof.
  split; [|split; [|split]].
  - apply (proj1 (POST_provider_response_mapping
                    (sample_request (js "hello")) sample_env (answering 429 VNull)
                    (js "hello") (VString (js "en")) (VString (js "ja")) (js "k3y")
                    _ sample_accepted eq_refl)).
    reflexivity.
  - apply (proj1 (proj2 (proj2 (POST_provider_response_mapping
                    (sample_request (js "hello")) sample_env (answering 404 VNull)
                    (js "hello") (VString (js "en")) (VString (js "ja")) (js "k3y")
                    {| resp_status := 404; resp_body := JSONBody VNull |}
                    sample_accepted eq_refl))));
      cbn [resp_status]; lia.
  - apply (proj1 (proj2 (proj2 (proj2 (POST_provider_response_mapping
                    (sample_request (js "hello")) sample_env (answering 304 VNull)
                    (js "hello") (VString (js "en")) (VString (js "ja")) (js "k3y")
                    {| resp_status := 304; resp_body := JSONBody VNull |}
                    sample_accepted eq_refl))))).
    right. right. reflexivity.
  - apply (proj2 (proj2 (proj2 (proj2 (POST_provider_response_mapping
                    (sample_request (js "hello")) sample_env
                    (answering 200 (provider_answer [sample_translation]))
                    (js "hello") (VString (js "en")) (VString (js "ja")) (js "k3y")
                    _ sample_accepted eq_refl))))
                 eq_refl (provider_answer [sample_translation])
                 (VObject [ (js "translations", VArray [sample_translation]) ])
                 sample_translation []);
      reflexivity.
Defined.

Lemma POST_error_response_shape_witness :
  let e := {| code := ERROR_CODES.API_ERROR;
              message := js "Translation service is temporarily unavailable.";
              status := 404 |} in
  In (code e) taxonomy
  /\ message e <> []
  /\ status e = 404
  /\ (In 404 fixed_statuses
      \/ exists req r,
           In req (requests (trace (POST (sample_request (js "hello")) sample_env
                                         (answering 404 VNull))))
           /\ answering 404 VNull req = Responded r /\ 404 = resp_status r).
Proof.
  cbv zeta.
  apply (POST_error_response_shape (sample_request (js "hello")) sample_env
           (answering 404 VNull)).
  reflexivity.
Defined.

Lemma POST_total_witness :
  completion (POST (sample_request (js "hello")) sample_env
                   (answering 200 (provider_answer [])))
  = Return API_ERROR_response.
Proof.
  apply (proj2 (proj2 (POST_total (sample_request (js "hello")) sample_env
                         (answering 200 (provider_answer []))))
               (js "hello") (VString (js "en")) (VString (js "ja")) (js "k3y")
               _ (provider_answer [])
               (VObject [ (js "translations", VArray []) ])
               sample_accepted eq_refl);
    reflexivity.
Defined.

(** The empty string is told apart by the two layers: the gateway answers
    it with the message of the blank check, the route handler with the
    message of its first check. *)
Lemma empty_text_gateway_and_route :
  translate None unreachable [] en ja = ([], Throw (ThrownAPIError empty_text_error))
  /\ POST (sample_request []) sample_env unreachable
     = rejected (js "Please enter valid text to translate.").
Proof. split; reflexivity. Qed.

(** A request body that is the JSON value [null] cannot be destructured;
    the handler answers it from its [catch] clause. *)
Lemma POST_null_body :
  POST {| request_body := JSONBody VNull |} sample_env unreachable
  = ([EConsoleError (js "Translation API error:")
                    (LogExn (NullishDestructure NNull (js "text")))],
     Return API_ERROR_response).
Proof. reflexivity. Qed.

End ProxySamples.

(** ** Gateway and Proxy Endpoint together *)

(** Every error response of the route handler, delivered to the gateway,
    makes [translate] fail with the same code, the same message and the same
    status. *)
Lemma translate_reports_route_errors
    (request : Route.NextRequest) (env : Route.Env) (provider : Network)
    (navigator : option bool) (net : Network)
    (text : JSString) (sourceLanguage targetLanguage : Language)
    (e : Route.ErrorBody) (st : Z) :
  passes_local_checks navigator text ->
  completion (Route.POST request env provider)
    = Return {| Route.body := Route.Failure e; Route.http_status := st |} ->
  net (translate_request text sourceLanguage targetLanguage)
    = Responded (served {| Route.body := Route.Failure e; Route.http_status := st |}) ->
  translate navigator net text sourceLanguage targetLanguage
  = ([EFetch (translate_request text sourceLanguage targetLanguage)],
     Throw (ThrownAPIError
              {| code := VString (Route.code e);
                 message := VString (Route.message e);
                 status := st |})).
Proof.
  intros Hpre Hpost Hnet.
  pose proof (POST_ensures request env provider) as Hshape.
  unfold ensures in Hshape. rewrite Hpost in Hshape.
  destruct Hshape as (Hcode & Hmsg & _ & _ & Hok).
  now apply translate_passes_route_errors.
Qed.

(* ===================================================================== *)
(** * Further properties *)
(* ===================================================================== *)

(** ** Translation Gateway: requests, results and errors *)

Lemma silent_raise_as {T U A} (inj : T -> U) (m : Eff T A) :
  silent m -> silent (raise_as inj m).
Proof. now destruct m as [tr [a|t]]. Qed.

Lemma silent_translate_catch (error : Thrown) : silent (translate_catch error).
Proof. rewrite translate_catch_classifies. reflexivity. Qed.

Lemma silent_to_property_key (v : JSValue) : silent (to_property_key v).
Proof. unfold to_property_key. now destruct (to_js_string v). Qed.

(** The [try] block of [translate] sends one request, whatever comes back. *)
Lemma translate_try_requests (net : Network) (text : JSString)
    (sourceLanguage targetLanguage : Language) :
  requests (trace (translate_try net text sourceLanguage targetLanguage))
  = [translate_request text sourceLanguage targetLanguage].
Proof.
  unfold translate_try. rewrite trace_bind.
  unfold fetch at 1 2 3. destruct (net _) as [|r]; [reflexivity|].
  cbn [raise_as completion snd trace fst].
  rewrite requests_app. cbn [requests flat_map app].
  change (flat_map _ ?tr) with (requests tr).
  match goal with |- _ :: requests (trace ?m) = _ =>
    assert (silent m) as Hs; [|now rewrite Hs] end.
  apply silent_bind; [apply silent_raise_as, silent_json|]. intros data.
  destruct (negb (resp_ok r)); [|reflexivity].
  apply silent_bind; [apply silent_raise_as, silent_get_property|]. intros c.
  apply silent_bind; [apply silent_raise_as, silent_get_property|]. intros m.
  apply silent_bind; [|reflexivity].
  unfold js_or_else. destruct (truthy m); [reflexivity|].
  apply silent_bind; [apply silent_raise_as, silent_to_property_key | reflexivity].
Qed.

(** X1. When the local checks pass and the endpoint answers with a success
    status and a JSON body, [translate] returns that body as it is, after
    one request. *)
Theorem translate_returns_data (navigator : option bool) (net : Network)
    (text : JSString) (sourceLanguage targetLanguage : Language)
    (r : HttpResponse) (data : JSValue) :
  passes_local_checks navigator text ->
  net (translate_request text sourceLanguage targetLanguage) = Responded r ->
  resp_ok r = true ->
  resp_body r = JSONBody data ->
  translate navigator net text sourceLanguage targetLanguage
  = ([EFetch (translate_request text sourceLanguage targetLanguage)], Return data).
Proof.
  intros Hpre Hnet Hok Hbody.
  rewrite (translate_sends _ _ _ _ _ Hpre).
  unfold translate_try, fetch. rewrite Hnet. cbn [raise_as bind].
  rewrite Hbody. cbn [json ret raise_as bind]. rewrite Hok. reflexivity.
Qed.

Lemma passes_local_checks_hello : passes_local_checks None (js "hello").
Proof.
  split; [reflexivity|]. split; [vm_compute; discriminate | vm_compute; discriminate].
Defined.

Lemma translate_returns_data_witness :
  translate None (RouteSpec.answering 200 (VObject [(js "translatedText", VString (js "hola"))]))
            (js "hello") en ja
  = ([EFetch (translate_request (js "hello") en ja)],
     Return (VObject [(js "translatedText", VString (js "hola"))])).
Proof.
  apply (translate_returns_data None _ (js "hello") en ja
           {| resp_status := 200;
              resp_body := JSONBody (VObject [(js "translatedText", VString (js "hola"))]) |}
           _ passes_local_checks_hello); reflexivity.
Defined.

(** X2. [translate] sends exactly one request when its three local checks
    pass and none at all, nor any other event, when one of them fails;
    it never retries. *)
Theorem translate_request_count (navigator : option bool) (net : Network)
    (text : JSString) (sourceLanguage targetLanguage : Language) :
  (passes_local_checks navigator text ->
     requests (trace (translate navigator net text sourceLanguage targetLanguage))
     = [translate_request text sourceLanguage targetLanguage])
  /\ (~ passes_local_checks navigator text ->
     trace (translate navigator net text sourceLanguage targetLanguage) = []).
Proof.
  split.
  - intros Hpre. rewrite (translate_sends _ _ _ _ _ Hpre).
    rewrite try_catch_requests by apply silent_translate_catch.
    apply translate_try_requests.
  - intros Hnot. unfold translate.
    destruct (isOnline navigator) eqn:Hon; [|reflexivity]. cbn [negb].
    destruct (negb (truthy (VString text)) || (js_length (trim text) =? 0)) eqn:Hblank;
      [reflexivity|].
    destruct (5000 <? js_length text) eqn:Hlong; [reflexivity|].
    exfalso. apply Hnot. split; [exact Hon|].
    apply orb_false_elim in Hblank as [_ Hblank]. apply Z.eqb_neq in Hblank.
    apply Z.ltb_ge in Hlong. split; [|exact Hlong].
    intros Ht. apply Hblank. now rewrite Ht.
Qed.

Lemma translate_request_count_witness :
  requests (trace (translate None RouteSpec.unreachable (js "hello") en ja))
  = [translate_request (js "hello") en ja]
  /\ trace (translate (Some false) RouteSpec.unreachable (js "hello") en ja) = [].
Proof.
  split.
  - exact (proj1 (translate_request_count None RouteSpec.unreachable (js "hello") en ja)
                 passes_local_checks_hello).
  - apply (proj2 (translate_request_count (Some false) RouteSpec.unreachable
                                          (js "hello") en ja)).
    intros (Hon & _). discriminate Hon.
Defined.

Lemma truthy_js_or (a b : JSValue) : truthy b = true -> truthy (js_or a b) = true.
Proof. intros Hb. unfold js_or. now destruct (truthy a) eqn:E. Qed.

(** What the [try] block of [translate] can throw: an exception of the
    runtime, or the error built from a response with a status outside
    200-299. *)
Lemma translate_try_ensures (net : Network) (text : JSString)
    (sourceLanguage targetLanguage : Language) :
  ensures (translate_try net text sourceLanguage targetLanguage)
          (fun _ => True)
          (fun thrown =>
             match thrown with
             | ThrownExn _ => True
             | ThrownAPIError e =>
                 truthy (code e) = true
                 /\ exists r,
                      net (translate_request text sourceLanguage targetLanguage)
                        = Responded r
                      /\ resp_ok r = false /\ status e = resp_status r
             end).
Proof.
  unfold translate_try.
  eapply (ensures_bind _ _
            (fun r => net (translate_request text sourceLanguage targetLanguage)
                      = Responded r)).
  { unfold ensures, fetch, completion. cbn [raise_as snd].
    now destruct (net _). }
  intros r Hr.
  eapply (ensures_bind _ _ (fun _ => True)).
  { destruct (resp_body r); exact I. }
  intros data _.
  destruct (negb (resp_ok r)) eqn:Hok; [|exact I].
  apply negb_true_iff in Hok.
  eapply (ensures_bind _ _ (fun _ => True)).
  { destruct data; exact I. }
  intros c _.
  eapply (ensures_bind _ _ (fun _ => True)).
  { destruct data; exact I. }
  intros m _.
  eapply (ensures_bind _ _ (fun _ => True)).
  { unfold js_or_else. destruct (truthy m); [exact I|].
    unfold ensures, to_property_key. now destruct (to_js_string c). }
  intros msg _. unfold ensures. cbn [throw completion snd code status].
  split; [now apply truthy_js_or | eauto].
Qed.

(** X3. Whatever [translate] throws is a structured error, never a raw
    exception: its code is truthy, and its status is 0, 400 or 500 or the
    status of the non-success response the endpoint gave. *)
Theorem translate_throws_structured (navigator : option bool) (net : Network)
    (text : JSString) (sourceLanguage targetLanguage : Language) (t : Thrown) :
  completion (translate navigator net text sourceLanguage targetLanguage) = Throw t ->
  exists e,
    t = ThrownAPIError e
    /\ truthy (code e) = true
    /\ (In (status e) [0; 400; 500]
        \/ exists r,
             net (translate_request text sourceLanguage targetLanguage) = Responded r
             /\ resp_ok r = false /\ status e = resp_status r).
Proof.
  unfold translate.
  destruct (negb (isOnline navigator)).
  { intros [= <-]. eexists. split; [reflexivity|]. split; [reflexivity|].
    left. simpl. tauto. }
  destruct (negb (truthy (VString text)) || (js_length (trim text) =? 0)).
  { intros [= <-]. eexists. split; [reflexivity|]. split; [reflexivity|].
    left. simpl. tauto. }
  destruct (5000 <? js_length text).
  { intros [= <-]. eexists. split; [reflexivity|]. split; [reflexivity|].
    left. simpl. tauto. }
  rewrite completion_try_catch.
  pose proof (translate_try_ensures net text sourceLanguage targetLanguage) as H.
  unfold ensures in H.
  destruct (completion (translate_try net text sourceLanguage targetLanguage))
    as [data|thrown]; [discriminate|].
  rewrite translate_catch_classifies. cbn [throw completion snd].
  intros [= <-]. destruct thrown as [e|x].
  - exists e. destruct H as (Hc & r & Hr). split; [reflexivity|].
    split; [exact Hc|]. right. now exists r.
  - eexists. split; [reflexivity|].
    destruct (instanceof_TypeError x); (split; [reflexivity|]); left; simpl; tauto.
Qed.

Lemma translate_throws_structured_witness :
  let net : Network :=
    fun _ => Responded {| resp_status := 502;
                          resp_body := NotJSON (js "Bad Gateway") |} in
  exists e,
    ThrownAPIError API_ERROR_error = ThrownAPIError e
    /\ truthy (code e) = true
    /\ (In (status e) [0; 400; 500]
        \/ exists r,
             net (translate_request (js "hello") en ja) = Responded r
             /\ resp_ok r = false /\ status e = resp_status r).
Proof.
  cbv zeta.
  apply (translate_throws_structured (Some true)
           (fun _ => Responded {| resp_status := 502;
                                  resp_body := NotJSON (js "Bad Gateway") |})
           (js "hello") en ja).
  reflexivity.
Defined.

(** ** Error Normalizer: what it returns *)

(** X4. For every code that is not the name of a property of
    [Object.prototype], [getErrorMessage] returns the string
    [message_of_code] gives: the message of the code if it is one of the
    six codes, the API_ERROR message otherwise; and that string is not
    empty. *)
Theorem getErrorMessage_string_unless_reserved (c : JSString) :
  ~ In c reserved_names ->
  getErrorMessage c = VString (message_of_code c) /\ message_of_code c <> [].
Proof.
  intros Hres. unfold message_of_code.
  repeat match goal with
         | |- context [if js_eqb c ?k then _ else _] =>
             let E := fresh "E" in
             destruct (js_eqb c k) eqn:E;
             [apply js_eqb_eq in E; subst c; split; [reflexivity | discriminate]|]
         end.
  split; [|discriminate].
  apply getErrorMessage_unknown; [|exact Hres].
  unfold taxonomy. cbn [In].
  intros H.
  repeat (destruct H as [<-|H]; [vm_compute in *; congruence|]).
  exact H.
Qed.

Lemma getErrorMessage_string_unless_reserved_witness :
  (getErrorMessage (js "TIMEOUT")
   = VString (js "Translation service is temporarily unavailable.")
   /\ js "Translation service is temporarily unavailable." <> [])
  /\ (getErrorMessage (js "OFFLINE")
      = VString (js "You are offline. Please check your internet connection.")
      /\ js "You are offline. Please check your internet connection." <> []).
Proof.
  split.
  - apply (getErrorMessage_string_unless_reserved (js "TIMEOUT")).
    vm_compute. intuition discriminate.
  - apply (getErrorMessage_string_unless_reserved (js "OFFLINE")).
    vm_compute. intuition discriminate.
Defined.

(** X5. The six codes of the taxonomy have six different messages, each a
    non-empty string that passes the wording check of the property test. *)
Theorem known_messages_distinct_and_friendly :
  (forall c, In c taxonomy ->
     exists s, getErrorMessage c = VString s /\ s <> []
               /\ hasUserFriendlyContent s = true)
  /\ (forall c1 c2, In c1 taxonomy -> In c2 taxonomy ->
        getErrorMessage c1 = getErrorMessage c2 -> c1 = c2).
Proof.
  unfold taxonomy. split.
  - intros c H. cbn [In] in H.
    repeat (destruct H as [<-|H];
            [eexists; split; [reflexivity|]; split; [discriminate | reflexivity]|]).
    elim H.
  - intros c1 c2 H1 H2 Heq. cbn [In] in H1, H2.
    repeat (destruct H1 as [<-|H1]; [|]); try (elim H1);
      repeat (destruct H2 as [<-|H2]; [|]); try (elim H2);
      try reflexivity; vm_compute in Heq; discriminate Heq.
Qed.

Lemma known_messages_distinct_and_friendly_witness :
  (exists s, getErrorMessage ERROR_CODES.OFFLINE = VString s /\ s <> []
             /\ hasUserFriendlyContent s = true)
  /\ ERROR_CODES.RATE_LIMIT = ERROR_CODES.RATE_LIMIT.
Proof.
  split.
  - apply (proj1 known_messages_distinct_and_friendly).
    vm_compute. tauto.
  - apply (proj2 known_messages_distinct_and_friendly);
      [vm_compute; tauto | vm_compute; tauto | reflexivity].
Defined.

(** ** Proxy Endpoint: when the provider is called, and when it succeeds *)

Section ProxyForwarding.
Import Route RouteSpec.

Variables (request : NextRequest) (env : Env) (net : Network).

Lemma eff_eta {T A} (m : Eff T A) : m = (trace m, completion m).
Proof. now destruct m. Qed.

Lemma completion_bind_Return {T A B} (m : Eff T A) (f : A -> Eff T B) (b : B) :
  completion (bind m f) = Return b ->
  exists a, completion m = Return a /\ completion (f a) = Return b.
Proof.
  rewrite completion_bind. destruct (completion m) as [a|t]; [eauto | discriminate].
Qed.

Lemma get_property_Return (v : JSValue) (k : JSString) (a : JSValue) :
  completion (get_property v k) = Return a -> get_property v k = ret a.
Proof. destruct v; cbn; intros [= <-]; reflexivity. Qed.

Lemma get_first_Return (v a : JSValue) :
  completion (get_first v) = Return a -> get_first v = ret a.
Proof. destruct v; cbn; intros [= <-]; reflexivity. Qed.

(** Parsing and destructuring either throw, sending nothing, or hand the
    three fields of the body to the validation. *)
Lemma POST_try_carries_cases :
  (exists e, POST_try request env net = throw e)
  \/ (exists text sourceLanguage targetLanguage,
        carries request text sourceLanguage targetLanguage
        /\ POST_try request env net
           = validate_and_call env net text sourceLanguage targetLanguage).
Proof.
  unfold POST_try, carries. destruct (request_body request) as [detail|b].
  - left. now exists (JSONSyntaxError detail).
  - cbn [json]. rewrite bind_ret_l.
    destruct b;
      try (right; do 3 eexists; split;
           [ eexists; split; [reflexivity | reflexivity]
           | cbn [destructure_body get_property]; rewrite !bind_ret_l; reflexivity ]);
      left; eexists; reflexivity.
Qed.

(** The validation either rejects, sending nothing and answering with an
    error, or all five checks pass and it is the call to the provider. *)
Lemma validate_and_call_forwards (text sourceLanguage targetLanguage : JSValue) :
  (exists e st,
      completion (validate_and_call env net text sourceLanguage targetLanguage)
        = Return {| body := Failure e; http_status := st |}
      /\ requests (trace (validate_and_call env net
                            text sourceLanguage targetLanguage)) = [])
  \/ (exists str key,
        text = VString str
        /\ trim str <> [] /\ js_length str <= 5000
        /\ valid_language sourceLanguage /\ valid_language targetLanguage
        /\ GOOGLE_TRANSLATE_API_KEY env = Some key /\ key <> []
        /\ validate_and_call env net text sourceLanguage targetLanguage
           = call_provider net (Some key) text sourceLanguage targetLanguage).
Proof.
  unfold validate_and_call.
  destruct (negb (truthy text) || negb (is_string text)) eqn:H1;
    [left; do 2 eexists; split; reflexivity|].
  apply orb_false_elim in H1 as [Htruthy Hstring].
  apply negb_false_iff in Htruthy, Hstring.
  destruct text as [| | | |str| | |]; try discriminate Hstring.
  cbn [string_of].
  destruct (js_length (trim str) =? 0) eqn:H2;
    [left; do 2 eexists; split; reflexivity|].
  destruct (5000 <? js_length str) eqn:H3;
    [left; do 2 eexists; split; reflexivity|].
  destruct (negb (array_includes validLanguages sourceLanguage)
            || negb (array_includes validLanguages targetLanguage)) eqn:H4;
    [left; do 2 eexists; split; reflexivity|].
  apply orb_false_elim in H4 as [Hs Ht]. apply negb_false_iff in Hs, Ht.
  cbv zeta.
  destruct (GOOGLE_TRANSLATE_API_KEY env) as [[|c key]|] eqn:Hkey;
    try (left; do 2 eexists; split; reflexivity).
  right. exists str, (c :: key).
  split; [reflexivity|].
  split. { intros Hn. rewrite Hn in H2. discriminate H2. }
  split. { now apply Z.ltb_ge. }
  split. { now apply array_includes_validLanguages. }
  split. { now apply array_includes_validLanguages. }
  split; [reflexivity|]. split; [discriminate | reflexivity].
Qed.

(** X6. The handler calls the provider only for a request that passes all
    five validation checks, and then exactly once, with the text and the
    languages of that request. *)
Theorem POST_requests_only_when_accepted (req : FetchRequest) :
  In req (requests (trace (POST request env net))) ->
  exists text sourceLanguage targetLanguage key,
    accepted request env text sourceLanguage targetLanguage key
    /\ requests (trace (POST request env net))
       = [google_request (Some key) (VString text) sourceLanguage targetLanguage].
Proof.
  unfold POST. rewrite try_catch_requests by apply silent_POST_catch.
  destruct POST_try_carries_cases as [(e & ->) | (text & s & t & Hc & ->)];
    [intros []|].
  destruct (validate_and_call_forwards text s t)
    as [(e & st & _ & ->) | (str & key & -> & Htrim & Hlen & Hs & Ht & Hkey & Hne & ->)];
    [intros []|].
  intros _. exists str, s, t, key. split.
  - repeat split; assumption.
  - apply call_provider_requests.
Qed.

End ProxyForwarding.

Lemma POST_requests_only_when_accepted_witness :
  exists text sourceLanguage targetLanguage key,
    RouteSpec.accepted (RouteSpec.sample_request (js "hello")) RouteSpec.sample_env
                       text sourceLanguage targetLanguage key
    /\ requests (trace (Route.POST (RouteSpec.sample_request (js "hello"))
                                   RouteSpec.sample_env RouteSpec.unreachable))
       = [Route.google_request (Some key) (VString text) sourceLanguage targetLanguage].
Proof.
  apply (POST_requests_only_when_accepted
           (RouteSpec.sample_request (js "hello")) RouteSpec.sample_env
           RouteSpec.unreachable
           (Route.google_request (Some (js "k3y")) (VString (js "hello"))
                                 (VString (js "en")) (VString (js "ja")))).
  vm_compute. left. reflexivity.
Defined.

Section ProxySuccess.
Import Route RouteSpec.

Variables (request : NextRequest) (env : Env) (net : Network).

Lemma fetch_Return (req : FetchRequest) (r : HttpResponse) :
  completion (fetch net req) = Return r -> net req = Responded r.
Proof.
  unfold fetch, completion. cbn [snd]. destruct (net req); [discriminate|].
  now intros [= ->].
Qed.

Lemma json_Return (b : Body) (v : JSValue) :
  completion (json b) = Return v -> b = JSONBody v.
Proof. destruct b; cbn; [discriminate | now intros [= ->]]. Qed.

Lemma POST_catch_fails (e : Exn) :
  exists c m st, completion (POST_catch e) = Return (error_response c m st).
Proof.
  unfold POST_catch. rewrite completion_bind. cbn [console_error completion snd].
  destruct (_ && _); do 3 eexists; reflexivity.
Qed.

(** A success answer of [call_provider] comes from a provider response with
    a success status whose body has a first translation. *)
Lemma call_provider_success apiKey (text sourceLanguage targetLanguage : JSValue)
    (translated detected : JSValue) (st : Z) :
  completion (call_provider net apiKey text sourceLanguage targetLanguage)
    = Return {| body := Success translated detected; http_status := st |} ->
  st = 200
  /\ exists r data inner translations first,
       net (google_request apiKey text sourceLanguage targetLanguage) = Responded r
       /\ resp_ok r = true
       /\ resp_body r = JSONBody data
       /\ get_property data (js "data") = ret inner
       /\ get_property inner (js "translations") = ret translations
       /\ get_first translations = ret first
       /\ get_property first (js "translatedText") = ret translated
       /\ get_property first (js "detectedSourceLanguage") = ret detected.
Proof.
  unfold call_provider. intros H.
  apply completion_bind_Return in H as (r & Hr & H). apply fetch_Return in Hr.
  destruct (resp_status r =? 429); [discriminate H|].
  destruct ((resp_status r =? 401) || (resp_status r =? 403)).
  { apply completion_bind_Return in H as (u & _ & H).
    apply json_error_Return in H. discriminate H. }
  destruct (negb (resp_ok r)) eqn:Hok.
  { apply completion_bind_Return in H as (u & _ & H).
    apply json_error_Return in H. discriminate H. }
  apply negb_false_iff in Hok.
  apply completion_bind_Return in H as (data & Hdata & H). apply json_Return in Hdata.
  apply completion_bind_Return in H as (inner & Hinner & H).
  apply completion_bind_Return in H as (translations & Htr & H).
  apply completion_bind_Return in H as (first & Hfirst & H).
  apply completion_bind_Return in H as (tt' & Htt & H).
  apply completion_bind_Return in H as (dsl & Hdsl & H).
  cbn [ret completion snd NextResponse_json] in H.
  injection H as <- <- <-.
  split; [reflexivity|].
  exists r, data, inner, translations, first.
  repeat split; auto using get_property_Return, get_first_Return.
Qed.

(** X7. The handler answers with a translation only when the request
    passed validation and the provider answered with a success status and a
    body whose first translation holds the two fields returned; the status
    of such an answer is 200. *)
Theorem POST_success_only_from_provider (translated detected : JSValue) (st : Z) :
  completion (POST request env net)
    = Return {| body := Success translated detected; http_status := st |} ->
  st = 200
  /\ exists text sourceLanguage targetLanguage key r data inner translations first,
       accepted request env text sourceLanguage targetLanguage key
       /\ net (google_request (Some key) (VString text) sourceLanguage targetLanguage)
          = Responded r
       /\ resp_ok r = true
       /\ resp_body r = JSONBody data
       /\ get_property data (js "data") = ret inner
       /\ get_property inner (js "translations") = ret translations
       /\ get_first translations = ret first
       /\ get_property first (js "translatedText") = ret translated
       /\ get_property first (js "detectedSourceLanguage") = ret detected.
Proof.
  unfold POST. rewrite completion_try_catch.
  destruct (POST_try_carries_cases request env net)
    as [(e & ->) | (text & s & t & Hc & ->)].
  { cbn [throw completion snd].
    destruct (POST_catch_fails e) as (c & m & st' & ->). discriminate. }
  destruct (validate_and_call_forwards env net text s t)
    as [(e & st' & -> & _) | (str & key & -> & Htrim & Hlen & Hs & Ht & Hkey & Hne & ->)];
    [discriminate|].
  destruct (completion (call_provider net (Some key) (VString str) s t))
    as [resp|e] eqn:Hcall.
  - intros [= ->].
    apply call_provider_success in Hcall
      as (-> & r & data & inner & translations & first & H).
    split; [reflexivity|].
    exists str, s, t, key, r, data, inner, translations, first.
    split; [repeat split; assumption | exact H].
  - destruct (POST_catch_fails e) as (c & m & st' & ->). discriminate.
Qed.

End ProxySuccess.

Lemma POST_success_only_from_provider_witness :
  200 = 200
  /\ exists text sourceLanguage targetLanguage key r data inner translations first,
       RouteSpec.accepted (RouteSpec.sample_request (js "hello")) RouteSpec.sample_env
                          text sourceLanguage targetLanguage key
       /\ RouteSpec.answering 200 (RouteSpec.provider_answer [RouteSpec.sample_translation])
            (Route.google_request (Some key) (VString text) sourceLanguage targetLanguage)
          = Responded r
       /\ resp_ok r = true
       /\ resp_body r = JSONBody data
       /\ get_property data (js "data") = ret inner
       /\ get_property inner (js "translations") = ret translations
       /\ get_first translations = ret first
       /\ get_property first (js "translatedText")
          = ret (VString [12371; 12435; 12395; 12385; 12399]%N)
       /\ get_property first (js "detectedSourceLanguage") = ret (VString (js "en")).
Proof.
  apply (POST_success_only_from_provider
           (RouteSpec.sample_request (js "hello")) RouteSpec.sample_env
           (RouteSpec.answering 200 (RouteSpec.provider_answer [RouteSpec.sample_translation]))).
  reflexivity.
Defined.

(** ** Proxy Endpoint: the credential stays inside *)

Section ProxyCredential.
Import Route RouteSpec.

Lemma console_log_app (tr1 tr2 : list Event) :
  console_log (tr1 ++ tr2) = console_log tr1 ++ console_log tr2.
Proof. unfold console_log. apply flat_map_app. Qed.

Lemma same_outcome_refl {T A} (m : Eff T A) : same_outcome m m.
Proof. split; reflexivity. Qed.

Lemma same_outcome_try_catch {T U A} (m1 m2 : Eff T A) (h : T -> Eff U A) :
  same_outcome m1 m2 -> same_outcome (try_catch m1 h) (try_catch m2 h).
Proof.
  destruct m1 as [tr1 c1], m2 as [tr2 c2]. unfold same_outcome, completion, trace.
  cbn [fst snd]. intros [<- Hlog]. destruct c1 as [a|t]; cbn [try_catch fst snd].
  - now split.
  - destruct (h t) as [tr' c']. cbn [fst snd].
    split; [reflexivity|]. now rewrite !console_log_app, Hlog.
Qed.

Lemma bind_fetch {B} (net : Network) (req : FetchRequest)
    (f : HttpResponse -> Eff Exn B) :
  bind (fetch net req) f
  = match net req with
    | NetworkFailure => ([EFetch req], Throw FetchFailed)
    | Responded r => (EFetch req :: trace (f r), completion (f r))
    end.
Proof.
  unfold bind, fetch. destruct (net req) as [|r]; [reflexivity|].
  now destruct (f r).
Qed.

Lemma call_provider_same_outcome (net1 net2 : Network) (k1 k2 : option JSString)
    (text sourceLanguage targetLanguage : JSValue) :
  net1 (google_request k1 text sourceLanguage targetLanguage)
    = net2 (google_request k2 text sourceLanguage targetLanguage) ->
  same_outcome (call_provider net1 k1 text sourceLanguage targetLanguage)
               (call_provider net2 k2 text sourceLanguage targetLanguage).
Proof.
  intros Hnet. unfold call_provider. rewrite !bind_fetch, Hnet.
  destruct (net2 _) as [|r]; split; reflexivity.
Qed.

Lemma validate_and_call_same_outcome (net1 net2 : Network) (k1 k2 : JSString)
    (text sourceLanguage targetLanguage : JSValue) :
  k1 <> [] -> k2 <> [] ->
  net1 (google_request (Some k1) text sourceLanguage targetLanguage)
    = net2 (google_request (Some k2) text sourceLanguage targetLanguage) ->
  same_outcome
    (validate_and_call {| GOOGLE_TRANSLATE_API_KEY := Some k1 |} net1
                       text sourceLanguage targetLanguage)
    (validate_and_call {| GOOGLE_TRANSLATE_API_KEY := Some k2 |} net2
                       text sourceLanguage targetLanguage).
Proof.
  intros H1 H2 Hnet. unfold validate_and_call.
  repeat match goal with
         | |- same_outcome (if ?c then _ else _) _ =>
             destruct c; [apply same_outcome_refl|]
         end.
  cbv zeta. cbn [GOOGLE_TRANSLATE_API_KEY env_value truthy].
  destruct k1; [congruence|]. destruct k2; [congruence|]. cbn [negb].
  now apply call_provider_same_outcome.
Qed.

(** X8. The value of the credential reaches nothing but the request to the
    provider: with two configured credentials, and a provider that answers
    the same to both, the handler gives the same response and writes the
    same log. *)
Theorem POST_independent_of_credential (request : NextRequest)
    (net1 net2 : Network) (k1 k2 : JSString) :
  k1 <> [] -> k2 <> [] ->
  (forall text sourceLanguage targetLanguage,
      net1 (google_request (Some k1) text sourceLanguage targetLanguage)
      = net2 (google_request (Some k2) text sourceLanguage targetLanguage)) ->
  same_outcome (POST request {| GOOGLE_TRANSLATE_API_KEY := Some k1 |} net1)
               (POST request {| GOOGLE_TRANSLATE_API_KEY := Some k2 |} net2).
Proof.
  intros H1 H2 Hnet. unfold POST. apply same_outcome_try_catch.
  unfold POST_try. destruct (request_body request) as [detail|b];
    [apply same_outcome_refl|].
  cbn [json]. rewrite !bind_ret_l.
  destruct b; cbn [destructure_body get_property]; rewrite ?bind_ret_l;
    try apply same_outcome_refl;
    now apply validate_and_call_same_outcome.
Qed.

End ProxyCredential.

Lemma POST_independent_of_credential_witness :
  same_outcome
    (Route.POST (RouteSpec.sample_request (js "hello"))
                {| Route.GOOGLE_TRANSLATE_API_KEY := Some (js "k3y") |}
                (RouteSpec.answering 403 VNull))
    (Route.POST (RouteSpec.sample_request (js "hello"))
                {| Route.GOOGLE_TRANSLATE_API_KEY := Some (js "another") |}
                (RouteSpec.answering 403 VNull)).
Proof.
  apply POST_independent_of_credential.
  - discriminate.
  - discriminate.
  - reflexivity.
Defined.

(** ** Gateway and Proxy Endpoint: the whole path *)

Section Pipeline.

Variables (env : Route.Env) (provider : Network).
Variables (navigator : option bool) (text : JSString).
Variables (sourceLanguage targetLanguage : Language).

Lemma endpoint_serves (resp : Route.NextResponse) :
  completion (Route.POST (request_of (translate_request text sourceLanguage targetLanguage))
                         env provider) = Return resp ->
  endpoint env provider (translate_request text sourceLanguage targetLanguage)
  = Responded (served resp).
Proof. intros H. unfold endpoint. rewrite H. reflexivity. Qed.

(** A request the gateway sends carries what the route handler's checks
    ask for, once the credential is configured. *)
Lemma gateway_request_accepted (key : JSString) :
  passes_local_checks navigator text ->
  Route.GOOGLE_TRANSLATE_API_KEY env = Some key -> key <> [] ->
  RouteSpec.accepted
    (request_of (translate_request text sourceLanguage targetLanguage)) env
    text (VString (language_code sourceLanguage))
    (VString (language_code targetLanguage)) key.
Proof.
  intros (_ & Htrim & Hlen) Hkey Hne. unfold RouteSpec.accepted.
  split. { eexists. split; reflexivity. }
  split; [exact Htrim|]. split; [exact Hlen|].
  split. { destruct sourceLanguage; [left | right]; reflexivity. }
  split. { destruct targetLanguage; [left | right]; reflexivity. }
  split; assumption.
Qed.

(** X9. Every error the route handler answers to a request of the gateway
    reaches the caller of [translate] unchanged: same code, same message,
    same status. *)
Theorem pipeline_reports_route_error (e : Route.ErrorBody) (st : Z) :
  passes_local_checks navigator text ->
  completion (Route.POST (request_of (translate_request text sourceLanguage targetLanguage))
                         env provider)
    = Return {| Route.body := Route.Failure e; Route.http_status := st |} ->
  translate navigator (endpoint env provider) text sourceLanguage targetLanguage
  = ([EFetch (translate_request text sourceLanguage targetLanguage)],
     Throw (ThrownAPIError
              {| code := VString (Route.code e);
                 message := VString (Route.message e);
                 status := st |})).
Proof.
  intros Hpre Hpost.
  eapply translate_reports_route_errors; [exact Hpre | exact Hpost|].
  now apply endpoint_serves.
Qed.

(** X10. A translation the route handler answers to a request of the
    gateway is what [translate] returns: an object whose [translatedText]
    and [detectedSourceLanguage] read as the two values the handler put
    in, [undefined] included. *)
Theorem pipeline_returns_translation (translated detected : JSValue) (st : Z) :
  passes_local_checks navigator text ->
  completion (Route.POST (request_of (translate_request text sourceLanguage targetLanguage))
                         env provider)
    = Return {| Route.body := Route.Success translated detected;
                Route.http_status := st |} ->
  exists data,
    translate navigator (endpoint env provider) text sourceLanguage targetLanguage
    = ([EFetch (translate_request text sourceLanguage targetLanguage)], Return data)
    /\ get_property data (js "translatedText") = ret translated
    /\ get_property data (js "detectedSourceLanguage") = ret detected.
Proof.
  intros Hpre Hpost.
  pose proof (POST_ensures
                (request_of (translate_request text sourceLanguage targetLanguage))
                env provider) as Hshape.
  unfold ensures in Hshape. rewrite Hpost in Hshape.
  unfold RouteSpec.response_shape in Hshape. cbn in Hshape. subst st.
  exists (serialised (Route.Success translated detected)).
  split.
  - rewrite (translate_sends _ _ _ _ _ Hpre).
    unfold translate_try, fetch. rewrite (endpoint_serves _ Hpost). reflexivity.
  - destruct translated, detected; split; reflexivity.
Qed.

(** X11. A translation that passes the gateway's checks, sent to a handler
    with a configured credential, reaches the provider exactly once, with
    the same text and the two language codes, as plain text. *)
Theorem pipeline_forwards_once (key : JSString) :
  passes_local_checks navigator text ->
  Route.GOOGLE_TRANSLATE_API_KEY env = Some key -> key <> [] ->
  requests (trace (Route.POST
                     (request_of (translate_request text sourceLanguage targetLanguage))
                     env provider))
  = [ {| req_url := js "https://translation.googleapis.com/language/translate/v2?key="
                      ++ key;
         req_method := js "POST";
         req_headers := [(js "Content-Type", js "application/json")];
         req_body := VObject [ (js "q", VString text);
                               (js "source", VString (language_code sourceLanguage));
                               (js "target", VString (language_code targetLanguage));
                               (js "format", VString (js "text")) ] |} ].
Proof.
  intros Hpre Hkey Hne.
  pose proof (gateway_request_accepted key Hpre Hkey Hne) as Hacc.
  unfold Route.POST. rewrite try_catch_requests by apply silent_POST_catch.
  rewrite (POST_try_accepted _ _ _ _ _ _ _ Hacc).
  apply call_provider_requests.
Qed.

(** X12. When the provider cannot be reached, the caller of [translate]
    gets NETWORK_ERROR with status 503, the handler's answer, and not the
    status 0 of an endpoint that cannot be reached. *)
Theorem pipeline_provider_unreachable (key : JSString) :
  passes_local_checks navigator text ->
  Route.GOOGLE_TRANSLATE_API_KEY env = Some key -> key <> [] ->
  provider (Route.google_request (Some key) (VString text)
              (VString (language_code sourceLanguage))
              (VString (language_code targetLanguage))) = NetworkFailure ->
  translate navigator (endpoint env provider) text sourceLanguage targetLanguage
  = ([EFetch (translate_request text sourceLanguage targetLanguage)],
     Throw (ThrownAPIError
              {| code := VString ERROR_CODES.NETWORK_ERROR;
                 message := VString (js "Unable to connect. Please check your internet connection.");
                 status := 503 |})).
Proof.
  intros Hpre Hkey Hne Hdown.
  pose proof (gateway_request_accepted key Hpre Hkey Hne) as Hacc.
  assert (completion (Route.POST
                        (request_of (translate_request text sourceLanguage targetLanguage))
                        env provider)
          = Return RouteSpec.NETWORK_ERROR_response) as Hpost.
  { unfold Route.POST. rewrite (POST_try_accepted _ _ _ _ _ _ _ Hacc).
    unfold Route.call_provider, fetch. rewrite Hdown. reflexivity. }
  apply (translate_reports_route_errors _ _ _ _ _ _ _ _
           {| Route.code := Route.ERROR_CODES.NETWORK_ERROR;
              Route.message := js "Unable to connect. Please check your internet connection.";
              Route.status := 503 |} 503 Hpre Hpost).
  now apply endpoint_serves.
Qed.

End Pipeline.

Lemma pipeline_reports_route_error_witness :
  translate None (endpoint RouteSpec.sample_env (RouteSpec.answering 429 VNull))
            (js "hello") en ja
  = ([EFetch (translate_request (js "hello") en ja)],
     Throw (ThrownAPIError
              {| code := VString ERROR_CODES.RATE_LIMIT;
                 message := VString (js "Too many requests. Please wait a moment and try again.");
                 status := 429 |})).
Proof.
  apply (pipeline_reports_route_error RouteSpec.sample_env (RouteSpec.answering 429 VNull)
           None (js "hello") en ja
           {| Route.code := Route.ERROR_CODES.RATE_LIMIT;
              Route.message := js "Too many requests. Please wait a moment and try again.";
              Route.status := 429 |} 429 passes_local_checks_hello).
  reflexivity.
Defined.

Lemma pipeline_returns_translation_witness :
  exists data,
    translate None
      (endpoint RouteSpec.sample_env
         (RouteSpec.answering 200 (RouteSpec.provider_answer [RouteSpec.sample_translation])))
      (js "hello") en ja
    = ([EFetch (translate_request (js "hello") en ja)], Return data)
    /\ get_property data (js "translatedText")
       = ret (VString [12371; 12435; 12395; 12385; 12399]%N)
    /\ get_property data (js "detectedSourceLanguage") = ret (VString (js "en")).
Proof.
  apply (pipeline_returns_translation RouteSpec.sample_env
           (RouteSpec.answering 200 (RouteSpec.provider_answer [RouteSpec.sample_translation]))
           None (js "hello") en ja _ _ 200 passes_local_checks_hello).
  reflexivity.
Defined.

Lemma pipeline_forwards_once_witness :
  requests (trace (Route.POST (request_of (translate_request (js "hello") en ja))
                              RouteSpec.sample_env RouteSpec.unreachable))
  = [ {| req_url := js "https://translation.googleapis.com/language/translate/v2?key="
                      ++ js "k3y";
         req_method := js "POST";
         req_headers := [(js "Content-Type", js "application/json")];
         req_body := VObject [ (js "q", VString (js "hello"));
                               (js "source", VString (language_code en));
                               (js "target", VString (language_code ja));
                               (js "format", VString (js "text")) ] |} ].
Proof.
  apply (pipeline_forwards_once RouteSpec.sample_env RouteSpec.unreachable
           None (js "hello") en ja (js "k3y") passes_local_checks_hello).
  - reflexivity.
  - discriminate.
Defined.

Lemma pipeline_provider_unreachable_witness :
  translate None (endpoint RouteSpec.sample_env RouteSpec.unreachable) (js "hello") en ja
  = ([EFetch (translate_request (js "hello") en ja)],
     Throw (ThrownAPIError
              {| code := VString ERROR_CODES.NETWORK_ERROR;
                 message := VString (js "Unable to connect. Please check your internet connection.");
                 status := 503 |})).
Proof.
  apply (pipeline_provider_unreachable RouteSpec.sample_env RouteSpec.unreachable
           None (js "hello") en ja (js "k3y") passes_local_checks_hello).
  - reflexivity.
  - discriminate.
  - reflexivity.
Defined.

(** ** History list helpers *)

Section HistoryListHelpers.
Import TranslationHistory.

Lemma js_length_app (a b : JSString) : js_length (a ++ b) = js_length a + js_length b.
Proof. unfold js_length. rewrite length_app. lia. Qed.

Lemma js_length_firstn (n : Z) (s : JSString) :
  0 <= n <= js_length s -> js_length (firstn (Z.to_nat n) s) = n.
Proof. unfold js_length. intros H. rewrite firstn_length_le; lia. Qed.

(** X13. For a non-negative [maxLength], [truncateText] returns a text
    within the limit unchanged, and cuts a longer one to its first
    [maxLength] code units followed by "...", which makes [maxLength + 3]
    code units; the result is never longer than that. *)
Theorem truncateText_bounded (text : JSString) (maxLength : Z) :
  0 <= maxLength ->
  js_length (truncateText text maxLength) <= maxLength + 3
  /\ (js_length text <= maxLength -> truncateText text maxLength = text)
  /\ (maxLength < js_length text ->
      truncateText text maxLength = firstn (Z.to_nat maxLength) text ++ js "..."
      /\ js_length (truncateText text maxLength) = maxLength + 3).
Proof.
  intros Hmax. unfold truncateText, slice_from_start.
  destruct (Z.leb_spec (js_length text) maxLength) as [Hle|Hgt].
  - split; [lia|]. split; [reflexivity | lia].
  - replace (maxLength <? 0) with false by (symmetry; apply Z.ltb_ge; lia).
    rewrite Z.min_l by lia.
    assert (js_length (firstn (Z.to_nat maxLength) text ++ js "...") = maxLength + 3)
      as Hlen.
    { rewrite js_length_app, js_length_firstn by lia. reflexivity. }
    split; [lia|]. split; [lia|]. intros _. split; [reflexivity | exact Hlen].
Qed.

Lemma truncateText_bounded_witness :
  js_length (truncateText (js "konnichiwa") 5) <= 5 + 3
  /\ truncateText (js "konnichiwa") 5 = firstn (Z.to_nat 5) (js "konnichiwa") ++ js "..."
  /\ truncateText (js "hola") 5 = js "hola".
Proof.
  destruct (truncateText_bounded (js "konnichiwa") 5) as (Hb & _ & Hcut); [lia|].
  destruct (truncateText_bounded (js "hola") 5) as (_ & Hkeep & _); [lia|].
  split; [exact Hb|]. split.
  - apply Hcut. vm_compute. reflexivity.
  - apply Hkeep. vm_compute. discriminate.
Defined.

(** X14. For a valid date, [formatTimestamp] depends on the age
    [now - timestamp] alone: under a minute, and for any timestamp in the
    future, "Just now"; under an hour, the whole minutes, 1 to 59; under a
    day, the whole hours, 1 to 23; under a week, the whole days, 1 to 6;
    from a week on, the date in the locale's format. *)
Theorem formatTimestamp_buckets (toLocaleDateString : option Z -> JSString)
    (now timestamp : Z) :
  Z.abs timestamp <= MAX_TIME ->
  let age := now - timestamp in
  let shown := formatTimestamp toLocaleDateString now timestamp in
  (age < 60000 -> shown = js "Just now")
  /\ (60000 <= age < 3600000 ->
      exists k, 1 <= k <= 59 /\ k = age / 60000 /\ shown = decimal k ++ js "m ago")
  /\ (3600000 <= age < 86400000 ->
      exists k, 1 <= k <= 23 /\ k = age / 3600000 /\ shown = decimal k ++ js "h ago")
  /\ (86400000 <= age < 604800000 ->
      exists k, 1 <= k <= 6 /\ k = age / 86400000 /\ shown = decimal k ++ js "d ago")
  /\ (604800000 <= age -> shown = toLocaleDateString (Some timestamp)).
Proof.
  intros Hvalid. cbv zeta. unfold formatTimestamp, Date_getTime.
  replace (Z.abs timestamp <=? MAX_TIME) with true
    by (symmetry; now apply Z.leb_le).
  cbv zeta. set (age := now - timestamp).
  repeat split; intros Hage;
    repeat match goal with
           | |- context [?a <? ?b] => destruct (Z.ltb_spec a b)
           end;
    try reflexivity;
    try (exfalso; Z.to_euclidean_division_equations; lia);
    (eexists; split; [|split; reflexivity]);
    Z.to_euclidean_division_equations; lia.
Qed.

Lemma formatTimestamp_buckets_witness :
  formatTimestamp (fun _ => js "1/2/2024") 1700000300000 1700000000000
  = decimal 5 ++ js "m ago".
Proof.
  destruct (formatTimestamp_buckets (fun _ => js "1/2/2024") 1700000300000 1700000000000)
    as (_ & Hmins & _).
  - vm_compute. discriminate.
  - destruct Hmins as (k & _ & -> & ->); [lia | reflexivity].
Defined.

End HistoryListHelpers.

(** ** History Store and language pair under the property tests *)

Section HistoryTestProperties.
Import HistoryService HistoryTests.

Implicit Types (e : TranslationEntry) (store : gmap string (list TranslationEntry)).

Lemma has_id_false (i : JSString) e : has_id i e = false <-> id e <> i.
Proof.
  unfold has_id. destruct (js_eqb (id e) i) eqn:E.
  - apply js_eqb_eq in E. split; [discriminate | contradiction].
  - split; [|reflexivity]. intros _ Heq. rewrite Heq, js_eqb_refl in E. discriminate.
Qed.

Lemma upsert_fresh e (entries : list TranslationEntry) :
  (forall x, In x entries -> id x <> id e) -> upsert e entries = entries ++ [e].
Proof.
  intros Hfresh. unfold upsert.
  destruct (existsb (has_id (id e)) entries) eqn:Ex; [|reflexivity].
  apply existsb_exists in Ex as (x & Hx & Hid).
  apply js_eqb_eq in Hid. now elim (Hfresh x Hx).
Qed.

Lemma loadHistory_deleteEntry (i : JSString) store :
  loadHistory (deleteEntry i store)
  = List.filter (fun e => negb (has_id i e)) (loadHistory store).
Proof. unfold loadHistory at 1, deleteEntry. now rewrite lookup_insert_eq. Qed.

Lemma loadHistory_save_all (entries : list TranslationEntry) store :
  List.NoDup (map id (loadHistory store ++ entries)) ->
  loadHistory (save_all entries store) = loadHistory store ++ entries.
Proof.
  revert store. induction entries as [|e entries IH]; intros store Hnd.
  - cbn. now rewrite app_nil_r.
  - cbn [save_all fold_left]. fold (save_all entries (saveEntry e store)).
    assert (upsert e (loadHistory store) = loadHistory store ++ [e]) as Hup.
    { apply upsert_fresh. intros x Hx Heq.
      rewrite map_app in Hnd. cbn [map] in Hnd.
      apply List.NoDup_remove_2 in Hnd. apply Hnd.
      apply in_or_app. left. rewrite <- Heq. now apply in_map. }
    rewrite IH; rewrite loadHistory_saveEntry, Hup, <- app_assoc; [reflexivity|].
    exact Hnd.
Qed.

Lemma save_all_then_loadHistory_aux (entries : list TranslationEntry) store :
  List.NoDup (map id entries) ->
  loadHistory (save_all entries (clearAll store)) = entries.
Proof.
  intros Hnd. rewrite loadHistory_save_all; rewrite loadHistory_clearAll; [reflexivity|].
  exact Hnd.
Qed.

(** X15. Saving entries with pairwise different identifiers into a cleared
    store, one after the other, and loading the history gives back exactly
    these entries, in the order they were saved. *)
Theorem save_all_then_loadHistory (entries : list TranslationEntry) store :
  List.NoDup (map id entries) ->
  loadHistory (save_all entries (clearAll store)) = entries.
Proof. apply save_all_then_loadHistory_aux. Qed.

(** X16. After saving entries with pairwise different identifiers and
    deleting the first of them by its identifier, the history holds the
    other entries, unchanged and in order, and no entry with the deleted
    identifier; deleting it once more changes nothing. *)
Theorem deleteEntry_keeps_the_others e (rest : list TranslationEntry) store :
  List.NoDup (map id (e :: rest)) ->
  let saved := save_all (e :: rest) (clearAll store) in
  loadHistory (deleteEntry (id e) saved) = rest
  /\ (forall x, In x (loadHistory (deleteEntry (id e) saved)) -> id x <> id e)
  /\ loadHistory (deleteEntry (id e) (deleteEntry (id e) saved)) = rest.
Proof.
  intros Hnd. cbv zeta.
  assert (List.filter (fun x => negb (has_id (id e) x)) rest = rest) as Hrest.
  { apply forallb_filter_id. apply forallb_forall. intros x Hx.
    apply negb_true_iff, has_id_false. intros Heq.
    cbn [map] in Hnd. apply List.NoDup_cons_iff in Hnd as [Hnotin _].
    apply Hnotin. rewrite <- Heq. now apply in_map. }
  assert (loadHistory (deleteEntry (id e) (save_all (e :: rest) (clearAll store))) = rest)
    as Hdel.
  { rewrite loadHistory_deleteEntry, (save_all_then_loadHistory_aux (e :: rest) store Hnd).
    cbn [List.filter]. unfold has_id at 1. rewrite js_eqb_refl. cbn [negb].
    exact Hrest. }
  split; [exact Hdel|]. split.
  - rewrite Hdel. intros x Hx Heq.
    cbn [map] in Hnd. apply List.NoDup_cons_iff in Hnd as [Hnotin _].
    apply Hnotin. rewrite <- Heq. now apply in_map.
  - rewrite loadHistory_deleteEntry, Hdel. exact Hrest.
Qed.

Lemma sample_entries_distinct :
  List.NoDup (map id [sample_entry; second_entry]).
Proof.
  constructor; [|constructor; [|constructor]].
  - cbn [map In]. intros [H|[]]. vm_compute in H. discriminate H.
  - intros [].
Defined.

Lemma save_all_then_loadHistory_witness :
  loadHistory (save_all [sample_entry; second_entry] (clearAll ∅))
  = [sample_entry; second_entry].
Proof.
  exact (save_all_then_loadHistory [sample_entry; second_entry] ∅
           sample_entries_distinct).
Defined.

Lemma deleteEntry_keeps_the_others_witness :
  loadHistory (deleteEntry (id sample_entry)
                 (save_all [sample_entry; second_entry] (clearAll ∅)))
  = [second_entry].
Proof.
  exact (proj1 (deleteEntry_keeps_the_others sample_entry [second_entry] ∅
                  sample_entries_distinct)).
Defined.

(** X17. [getOppositeLanguage] never returns the language it was given,
    and applied twice it returns it. *)
Theorem getOppositeLanguage_involution (l : Language) :
  getOppositeLanguage l <> l
  /\ getOppositeLanguage (getOppositeLanguage l) = l.
Proof. destruct l; split; (discriminate || reflexivity). Qed.

End HistoryTestProperties.

(** ** Translation Gateway: when it returns, and what it calls blank *)

Lemma completion_raise_as_Return {T U A} (inj : T -> U) (m : Eff T A) (a : A) :
  completion (raise_as inj m) = Return a -> completion m = Return a.
Proof.
  destruct m as [tr [x|t]]; unfold completion; cbn;
    [intros [= ->]; reflexivity | discriminate].
Qed.

(** X18. [translate] returns a value only when its local checks passed and
    the endpoint answered with a success status and a JSON body, and the
    value is that body; on every other path it throws. *)
Theorem translate_returns_only_on_success (navigator : option bool) (net : Network)
    (text : JSString) (sourceLanguage targetLanguage : Language) (data : JSValue) :
  completion (translate navigator net text sourceLanguage targetLanguage) = Return data ->
  passes_local_checks navigator text
  /\ exists r,
       net (translate_request text sourceLanguage targetLanguage) = Responded r
       /\ resp_ok r = true
       /\ resp_body r = JSONBody data.
Proof.
  unfold translate.
  destruct (isOnline navigator) eqn:Hon; [|discriminate]. cbn [negb].
  destruct (negb (truthy (VString text)) || (js_length (trim text) =? 0)) eqn:Hblank;
    [discriminate|].
  destruct (5000 <? js_length text) eqn:Hlong; [discriminate|].
  rewrite completion_try_catch.
  destruct (completion (translate_try net text sourceLanguage targetLanguage))
    as [v|thrown] eqn:Htry.
  2:{ rewrite translate_catch_classifies. discriminate. }
  intros [= ->]. split.
  - split; [exact Hon|].
    apply orb_false_elim in Hblank as [_ Hblank]. apply Z.eqb_neq in Hblank.
    apply Z.ltb_ge in Hlong. split; [|exact Hlong].
    intros Ht. apply Hblank. now rewrite Ht.
  - unfold translate_try in Htry.
    apply completion_bind_Return in Htry as (r & Hr & Htry).
    apply completion_raise_as_Return in Hr.
    unfold fetch, completion in Hr. cbn [snd] in Hr.
    destruct (net _) as [|r'] eqn:Hnet; [discriminate|]. injection Hr as ->.
    apply completion_bind_Return in Htry as (v & Hv & Htry).
    apply completion_raise_as_Return in Hv.
    destruct (resp_body r) as [detail|v'] eqn:Hbody; [discriminate|].
    cbn in Hv. injection Hv as ->.
    destruct (resp_ok r) eqn:Hok; cbn [negb] in Htry.
    + cbn in Htry. injection Htry as ->. exists r. now repeat split.
    + exfalso.
      apply completion_bind_Return in Htry as (c & _ & Htry).
      apply completion_bind_Return in Htry as (m & _ & Htry).
      apply completion_bind_Return in Htry as (msg & _ & Htry).
      discriminate Htry.
Qed.

Lemma translate_returns_only_on_success_witness :
  let data := VObject [(js "translatedText", VString (js "hola"))] in
  passes_local_checks None (js "hello")
  /\ exists r,
       RouteSpec.answering 200 data (translate_request (js "hello") en ja) = Responded r
       /\ resp_ok r = true
       /\ resp_body r = JSONBody data.
Proof.
  cbv zeta.
  apply (translate_returns_only_on_success None
           (RouteSpec.answering 200 (VObject [(js "translatedText", VString (js "hola"))]))
           (js "hello") en ja).
  reflexivity.
Defined.

(** X19. While online, [translate] rejects a text as blank, with "Please
    enter text to translate." and before any request, exactly when every
    code unit of the text is white space or a line terminator; the empty
    text is such a text. *)
Theorem translate_blank_iff_whitespace (navigator : option bool) (net : Network)
    (text : JSString) (sourceLanguage targetLanguage : Language) :
  isOnline navigator = true ->
  translate navigator net text sourceLanguage targetLanguage
    = ([], Throw (ThrownAPIError empty_text_error))
  <-> forallb is_js_whitespace text = true.
Proof.
  intros Hon. rewrite <- trim_nil_iff. unfold translate. rewrite Hon. cbn [negb].
  split.
  - destruct (negb (truthy (VString text)) || (js_length (trim text) =? 0)) eqn:Hblank.
    + intros _. apply orb_prop in Hblank as [Hempty|Hlen].
      * destruct text; [reflexivity | discriminate Hempty].
      * apply Z.eqb_eq in Hlen. unfold js_length in Hlen.
        destruct (trim text); [reflexivity | cbn in Hlen; lia].
    + destruct (5000 <? js_length text).
      * intros H. apply (f_equal completion) in H. vm_compute in H.
        discriminate H.
      * intros H. apply (f_equal (fun m => requests (trace m))) in H.
        rewrite try_catch_requests in H by apply silent_translate_catch.
        rewrite translate_try_requests in H. discriminate H.
  - intros Ht. rewrite Ht. cbn [js_length length Z.of_nat Z.eqb].
    now rewrite orb_true_r.
Qed.

Lemma translate_blank_iff_whitespace_witness :
  translate (Some true) RouteSpec.unreachable [12288; 10; 32]%N ja en
  = ([], Throw (ThrownAPIError empty_text_error)).
Proof.
  apply (translate_blank_iff_whitespace (Some true) RouteSpec.unreachable
           [12288; 10; 32]%N ja en).
  - reflexivity.
  - reflexivity.
Defined.

(** ** Proxy Endpoint: status and log *)

Section ProxyStatusAndLog.
Import Route RouteSpec.

Variables (request : NextRequest) (env : Env) (net : Network).

(** X20. The HTTP status tells the two kinds of answer apart: a translation
    is answered with 200, an error never with a status in 200-299, so that
    [response.ok] is true exactly for translations. *)
Theorem POST_status_tells_outcome (resp : NextResponse) :
  completion (POST request env net) = Return resp ->
  match body resp with
  | Success _ _ => http_status resp = 200
  | Failure _ => (200 <=? http_status resp) && (http_status resp <=? 299) = false
  end.
Proof.
  intros H. pose proof (POST_ensures request env net) as Hshape.
  unfold ensures in Hshape. rewrite H in Hshape.
  unfold response_shape in Hshape.
  destruct (body resp) as [e|translated detected]; [|exact Hshape].
  now destruct Hshape as (_ & _ & _ & _ & Hok).
Qed.

Lemma log_free_bind {T A B} (m : Eff T A) (f : A -> Eff T B) :
  log_free m -> (forall a, log_free (f a)) -> log_free (bind m f).
Proof.
  unfold log_free. intros Hm Hf. rewrite trace_bind.
  destruct (completion m); [|exact Hm].
  now rewrite console_log_app, Hm, Hf.
Qed.

Lemma log_free_get_property v k : log_free (get_property v k).
Proof. now destruct v. Qed.

Lemma log_free_get_first v : log_free (get_first v).
Proof. now destruct v. Qed.

Lemma log_free_json b : log_free (json b).
Proof. now destruct b. Qed.

(** A refused status is never a success status, and among the other
    statuses it is one [NextResponse.json] does not accept. *)
Lemma refused_status_not_ok (r : HttpResponse) :
  resp_ok r = true -> refused_status (resp_status r) = false.
Proof.
  unfold resp_ok, refused_status. intros [H1 H2]%andb_prop.
  apply Z.leb_le in H1, H2.
  rewrite !orb_false_iff, !Z.ltb_ge, Z.eqb_neq. lia.
Qed.

Lemma refused_status_carriable (r : HttpResponse) :
  resp_ok r = false ->
  refused_status (resp_status r) = negb (status_carriable (resp_status r)).
Proof.
  unfold resp_ok. intros Hok.
  apply andb_false_iff in Hok. rewrite !Z.leb_gt in Hok.
  destruct (status_carriable (resp_status r)) eqn:Hc; cbn [negb].
  - apply status_carriable_iff in Hc. unfold refused_status.
    rewrite !orb_false_iff, !Z.ltb_ge, Z.eqb_neq. lia.
  - destruct (refused_status (resp_status r)) eqn:Hr; [reflexivity|].
    unfold refused_status in Hr.
    rewrite !orb_false_iff, !Z.ltb_ge, Z.eqb_neq in Hr.
    assert (status_carriable (resp_status r) = true) as Hc'
      by (apply status_carriable_iff; lia).
    congruence.
Qed.

Lemma logs_as_expected_quiet (sent : list FetchRequest) (m : Eff Exn NextResponse) :
  provider_status_refused net sent = false ->
  log_free m ->
  ensures m (fun resp => exists translated detected,
                           body resp = Success translated detected)
            (fun _ => True) ->
  logs_as_expected net sent m.
Proof.
  unfold log_free, ensures, logs_as_expected. intros Href Hfree Hens.
  rewrite Href, Hfree.
  destruct (completion m) as [resp|e]; [|reflexivity].
  split; [reflexivity|]. unfold expected_log_lines.
  destruct Hens as (translated & detected & ->). reflexivity.
Qed.

Lemma call_provider_logs apiKey (text sourceLanguage targetLanguage : JSValue) :
  logs_as_expected net [google_request apiKey text sourceLanguage targetLanguage]
    (call_provider net apiKey text sourceLanguage targetLanguage).
Proof.
  unfold call_provider. rewrite bind_fetch.
  destruct (net _) as [|r] eqn:Hnet.
  { unfold logs_as_expected, provider_status_refused. cbn [existsb].
    rewrite Hnet. reflexivity. }
  set (sent := [google_request apiKey text sourceLanguage targetLanguage]).
  assert (provider_status_refused net sent = refused_status (resp_status r)) as Href.
  { unfold provider_status_refused, sent. cbn [existsb]. rewrite Hnet.
    apply orb_false_r. }
  match goal with
  | |- logs_as_expected _ _ (EFetch ?q :: trace ?m, completion ?m) =>
      cut (logs_as_expected net sent m);
      [ unfold logs_as_expected, completion, trace; cbn [fst snd];
        intros H; exact H
      | ]
  end.
  destruct (resp_status r =? 429) eqn:E429.
  { apply Z.eqb_eq in E429. unfold logs_as_expected, expected_log_lines.
    rewrite Href, E429. split; reflexivity. }
  destruct ((resp_status r =? 401) || (resp_status r =? 403)) eqn:Eauth.
  { unfold logs_as_expected, expected_log_lines. rewrite Href.
    apply orb_prop in Eauth as [E|E]; apply Z.eqb_eq in E; rewrite E;
      split; reflexivity. }
  destruct (negb (resp_ok r)) eqn:Eok.
  { apply negb_true_iff in Eok.
    unfold logs_as_expected, expected_log_lines.
    rewrite Href, (refused_status_carriable r Eok).
    destruct (status_carriable (resp_status r)) eqn:Hc.
    - rewrite (json_error_carriable _ _ _ Hc). split; reflexivity.
    - destruct (json_error_not_carriable ERROR_CODES.API_ERROR
                  (js "Translation service is temporarily unavailable.")
                  (resp_status r) Hc) as (e & -> & _).
      reflexivity. }
  apply negb_false_iff in Eok.
  apply logs_as_expected_quiet.
  - rewrite Href. now apply refused_status_not_ok.
  - repeat (apply log_free_bind;
            [ first [ apply log_free_json | apply log_free_get_property
                    | apply log_free_get_first ]
            | intros ? ]).
    reflexivity.
  - eapply (ensures_bind _ _ (fun _ => True)); [destruct (resp_body r); exact I|].
    intros data _.
    eapply (ensures_bind _ _ (fun _ => True)); [destruct data; exact I|].
    intros inner _.
    eapply (ensures_bind _ _ (fun _ => True)); [destruct inner; exact I|].
    intros translations _.
    eapply (ensures_bind _ _ (fun _ => True)); [destruct translations; exact I|].
    intros first _.
    eapply (ensures_bind _ _ (fun _ => True)); [destruct first; exact I|].
    intros translated _.
    eapply (ensures_bind _ _ (fun _ => True)); [destruct first; exact I|].
    intros detected _. do 2 eexists. reflexivity.
Qed.

Lemma validate_and_call_logs (text sourceLanguage targetLanguage : JSValue) :
  logs_as_expected net
    (requests (trace (validate_and_call env net text sourceLanguage targetLanguage)))
    (validate_and_call env net text sourceLanguage targetLanguage).
Proof.
  unfold validate_and_call.
  repeat match goal with
         | |- logs_as_expected _ _ (if ?c then _ else _) =>
             destruct c; [split; reflexivity|]
         end.
  cbv zeta. rewrite call_provider_requests. apply call_provider_logs.
Qed.

(** X21. The handler writes no [console.error] line when it answers a
    translation, INVALID_INPUT or RATE_LIMIT.  For every other answer
    (AUTH_ERROR, API_ERROR, NETWORK_ERROR) it writes one line, except when
    the provider answered with a status below 200, above 599 or 304: then
    it writes two, one for the status of the provider and one in the
    [catch] clause for the exception of [NextResponse.json]. *)
Theorem POST_log_lines (resp : NextResponse) :
  completion (POST request env net) = Return resp ->
  length (console_log (trace (POST request env net)))
  = match body resp with
    | Success _ _ => 0%nat
    | Failure e =>
        if js_eqb (code e) (js "INVALID_INPUT") || js_eqb (code e) (js "RATE_LIMIT")
        then 0%nat
        else if provider_status_refused net (requests (trace (POST request env net)))
             then 2%nat else 1%nat
    end.
Proof.
  assert (logs_as_expected net (requests (trace (POST_try request env net)))
            (POST_try request env net)) as Htry.
  { destruct (POST_try_carries_cases request env net)
      as [(e & ->) | (text & s & t & _ & ->)];
      [reflexivity | apply validate_and_call_logs]. }
  unfold POST. rewrite try_catch_requests by apply silent_POST_catch.
  unfold logs_as_expected in Htry.
  destruct (POST_try request env net) as [tr [resp'|e]];
    unfold completion, trace in *; cbn [fst snd try_catch] in *.
  - intros [= <-]. exact (proj2 Htry).
  - unfold POST_catch. rewrite !json_error_carriable by reflexivity.
    unfold bind, console_error.
    destruct (instanceof_TypeError e && includes (exn_message e) (js "fetch"));
      cbn [ret fst snd app]; intros [= <-];
      rewrite console_log_app, length_app, Htry;
      destruct (provider_status_refused net (requests tr)); reflexivity.
Qed.

End ProxyStatusAndLog.

Lemma POST_status_tells_outcome_witness :
  (200 <=? 404) && (404 <=? 299) = false.
Proof.
  exact (POST_status_tells_outcome (RouteSpec.sample_request (js "hello"))
           RouteSpec.sample_env (RouteSpec.answering 404 VNull)
           (Route.error_response Route.ERROR_CODES.API_ERROR
              (js "Translation service is temporarily unavailable.") 404)
           eq_refl).
Defined.

Lemma POST_log_lines_witness :
  length (console_log (trace (Route.POST (RouteSpec.sample_request (js "hello"))
                                         RouteSpec.sample_env
                                         (RouteSpec.answering 403 VNull))))
  = 1%nat
  /\ length (console_log (trace (Route.POST (RouteSpec.sample_request (js "hello"))
                                            RouteSpec.sample_env
                                            (RouteSpec.answering 799 VNull))))
     = 2%nat.
Proof.
  split.
  - exact (POST_log_lines (RouteSpec.sample_request (js "hello"))
             RouteSpec.sample_env (RouteSpec.answering 403 VNull)
             (Route.error_response Route.ERROR_CODES.AUTH_ERROR
                (js "Translation service configuration error.") 403)
             eq_refl).
  - exact (POST_log_lines (RouteSpec.sample_request (js "hello"))
             RouteSpec.sample_env (RouteSpec.answering 799 VNull)
             (Route.error_response Route.ERROR_CODES.API_ERROR
                (js "Translation service is temporarily unavailable.") 500)
             eq_refl).
Defined.
